(** * surf_chat: the tool server (mcp.py) and the report pipeline (gradio.py)

    A shallow embedding of the two Python modules and the properties of
    their dispatch, aggregation and orchestration code.

    Conventions.
    - A parsed JSON value is a [json]; a Python number is carried by its
      [repr] (the program never computes with the numbers of a payload, it
      only looks them up, tests their truth value and prints them).
    - A Python [dict] built from JSON is an association list in insertion
      order with distinct keys; where only lookups happen ([arguments],
      [SURF_SPOTS]) it is a [gmap].
    - Characters of a [str] are the [ascii] of a [string].
    - Coordinates of gradio.py are binary64 floats.
    - [async]/[await] is direct sequencing: each [await] in the source
      completes before the next statement runs. *)

From Stdlib Require Import String Ascii ZArith List Bool Floats.PrimFloat.
From stdpp Require Import gmap strings pretty.
Import ListNotations.
Open Scope string_scope.
Set Warnings "-register-all,-inexact-float".

(** ** Python values *)

Inductive json : Type :=
| JNull
| JBool (b : bool)
| JNum (repr : string)
| JStr (s : string)
| JArr (items : list json)
| JObj (fields : list (string * json)).

(** Exceptions, with what the interpreter or the library puts in them. *)
Inductive exn : Type :=
| KeyError (key : string)
| AttributeError (type_name attr : string)
| TypeError (message : string)
| LibraryError (class message : string).

Inductive result (A : Type) : Type :=
| Ok (a : A)
| Raised (e : exn).
Arguments Ok {A} a.
Arguments Raised {A} e.

Definition rbind {A B} (r : result A) (f : A -> result B) : result B :=
  match r with
  | Ok a => f a
  | Raised e => Raised e
  end.

#[global] Instance result_ret : MRet result := fun A a => Ok a.
#[global] Instance result_bind : MBind result := fun A B f r => rbind r f.

Definition is_int_char (c : ascii) : bool :=
  let n := nat_of_ascii c in
  ((48 <=? n)%nat && (n <=? 57)%nat) || (n =? 45)%nat.

(** [type(v).__name__] *)
Definition type_name (v : json) : string :=
  match v with
  | JNull => "NoneType"
  | JBool _ => "bool"
  | JNum r => if forallb is_int_char (list_ascii_of_string r) then "int" else "float"
  | JStr _ => "str"
  | JArr _ => "list"
  | JObj _ => "dict"
  end.

Fixpoint dict_lookup (k : string) (fields : list (string * json)) : option json :=
  match fields with
  | [] => None
  | (k', v) :: rest => if String.eqb k k' then Some v else dict_lookup k rest
  end.

(** [v.get(k, dflt)]: only a dict has the method. *)
Definition py_get (v : json) (k : string) (dflt : json) : result json :=
  match v with
  | JObj fields =>
      Ok (match dict_lookup k fields with Some x => x | None => dflt end)
  | _ => Raised (AttributeError (type_name v) "get")
  end.

(** [v[:n]]: lists and strings are sliced, a dict takes the slice for a
    key, nothing else is subscriptable. *)
Definition py_slice (n : nat) (v : json) : result json :=
  match v with
  | JArr items => Ok (JArr (firstn n items))
  | JStr s => Ok (JStr (substring 0 n s))
  | JObj _ => Raised (TypeError "unhashable type: 'slice'")
  | _ => Raised (TypeError ("'" +:+ type_name v +:+ "' object is not subscriptable"))
  end.

(** [bool(v)] *)
Definition py_truthy (v : json) : bool :=
  match v with
  | JNull => false
  | JBool b => b
  | JNum r => negb (String.eqb r "0" || String.eqb r "0.0" || String.eqb r "-0.0")
  | JStr s => negb (String.eqb s EmptyString)
  | JArr items => match items with [] => false | _ => true end
  | JObj fields => match fields with [] => false | _ => true end
  end.

Definition hex_digit (n : nat) : ascii :=
  ascii_of_nat (if (n <? 10)%nat then 48 + n else 87 + n).

Definition dquote : ascii := ascii_of_nat 34.

(** One character of [repr] of a [str] quoted with [q]. *)
Definition repr_char (q c : ascii) : string :=
  let n := nat_of_ascii c in
  if Ascii.eqb c "\"%char then "\\"
  else if Ascii.eqb c q then String "\"%char (String q EmptyString)
  else if (n =? 10)%nat then "\n"
  else if (n =? 13)%nat then "\r"
  else if (n =? 9)%nat then "\t"
  else if (n <? 32)%nat || (n =? 127)%nat then
    "\x" +:+ String (hex_digit (n / 16)) (String (hex_digit (n mod 16)) EmptyString)
  else String c EmptyString.

Definition has_char (c : ascii) (s : string) : bool :=
  existsb (Ascii.eqb c) (list_ascii_of_string s).

(** [repr(s)] for a [str]: single quotes unless the text has a single
    quote and no double quote. *)
Definition repr_str (s : string) : string :=
  let q := if has_char "'"%char s && negb (has_char dquote s)
           then dquote else "'"%char in
  String q (fold_right (fun c acc => repr_char q c +:+ acc) (String q EmptyString)
                       (list_ascii_of_string s)).

Fixpoint join (sep : string) (parts : list string) : string :=
  match parts with
  | [] => EmptyString
  | [p] => p
  | p :: rest => p +:+ sep +:+ join sep rest
  end.

(** [repr(v)] *)
Fixpoint py_repr (v : json) : string :=
  match v with
  | JNull => "None"
  | JBool true => "True"
  | JBool false => "False"
  | JNum r => r
  | JStr s => repr_str s
  | JArr items => "[" +:+ join ", " (map py_repr items) +:+ "]"
  | JObj fields =>
      "{" +:+ join ", " (map (fun kv => repr_str (fst kv) +:+ ": " +:+ py_repr (snd kv)) fields)
          +:+ "}"
  end.

(** [str(v)], which is what an f-string field prints. *)
Definition py_str (v : json) : string :=
  match v with
  | JStr s => s
  | _ => py_repr v
  end.

(** [str(e)] *)
Definition str_exn (e : exn) : string :=
  match e with
  | KeyError k => repr_str k
  | AttributeError t a =>
      "'" +:+ t +:+ "' object has no attribute '" +:+ a +:+ "'"
  | TypeError m => m
  | LibraryError _ m => m
  end.

(** ** The world outside the process

    What the libraries answer is given by a [World]: the HTTP servers
    behind [httpx], the clock, the language model behind the report
    client and the [float] parser.  A run logs the requests it issues. *)

Inductive pyval : Type :=
| VJson (v : json)
| VFloat (f : float).

Definition pstr (s : string) : pyval := VJson (JStr s).

Record Response : Type := mkResponse {
  status_code : Z;
  (** the message of the [HTTPStatusError] that [raise_for_status] builds *)
  status_message : string;
  (** what [response.json()] gives *)
  json_body : result json }.

Record World : Type := mkWorld {
  http_get : string -> list (string * pyval) -> result Response;
  now_isoformat : string;
  messages_create : string -> result string;
  float_of_str : string -> result float }.

Inductive event : Type :=
| EvGet (url : string) (params : list (string * pyval))
| EvGenerate (prompt : string).

Definition io (A : Type) : Type := World -> result A * list event.

Definition run {A} (p : io A) (w : World) : result A * list event := p w.

#[global] Instance io_ret : MRet io := fun A a _ => (Ok a, []).
#[global] Instance io_bind : MBind io := fun A B f m w =>
  match m w with
  | (Ok a, t) => let (r, t') := f a w in (r, (t ++ t')%list)
  | (Raised e, t) => (Raised e, t)
  end.

Definition lift {A} (r : result A) : io A := fun _ => (r, []).

(** [try: body / except Exception as e: handler e] *)
Definition try_except {A} (body : io A) (handler : exn -> io A) : io A :=
  fun w =>
    match body w with
    | (Ok a, t) => (Ok a, t)
    | (Raised e, t) => let (r, t') := handler e w in (r, (t ++ t')%list)
    end.

(** [await client.get(url, params=params)] *)
Definition client_get (url : string) (params : list (string * pyval)) : io Response :=
  fun w => (http_get w url params, [EvGet url params]).

Definition is_success (r : Response) : bool :=
  ((200 <=? status_code r) && (status_code r <=? 299))%Z.

(** [response.raise_for_status()] *)
Definition raise_for_status (r : Response) : io unit :=
  lift (if is_success r then Ok tt
        else Raised (LibraryError "HTTPStatusError" (status_message r))).

(** [response.json()] *)
Definition response_json (r : Response) : io json := lift (json_body r).

(** [datetime.now().isoformat()] *)
Definition datetime_now_isoformat : io string := fun w => (Ok (now_isoformat w), []).

(** ** mcp.py *)

(** The text of a [TextContent]: a literal string, or the serialisation
    [json.dumps(doc, indent=indent)] of a document, which stays with the
    [json] library. *)
Inductive text : Type :=
| Plain (s : string)
| JsonDumps (doc : json) (indent : nat).

Record TextContent : Type := mkTextContent { type : string; text_of : text }.

Record Property : Type := mkProperty { prop_type : string; prop_description : string }.

Record InputSchema : Type := mkInputSchema {
  schema_type : string;
  properties : list (string * Property);
  required : list string }.

Record Tool : Type := mkTool {
  name : string;
  description : string;
  inputSchema : InputSchema }.

Definition list_tools : list Tool :=
  [ mkTool "get_weather_forecast"
      "Get marine weather forecast including swell, wind, and tide data for coordinates"
      (mkInputSchema "object"
         [ ("latitude", mkProperty "number" "Latitude of the surf spot");
           ("longitude", mkProperty "number" "Longitude of the surf spot") ]
         ["latitude"; "longitude"]);
    mkTool "search_surf_spot_info"
      "Search for information about a surf spot including optimal conditions"
      (mkInputSchema "object"
         [ ("spot_name", mkProperty "string" "Name of the surf spot");
           ("location", mkProperty "string" "General location/region of the spot") ]
         ["spot_name"]);
    mkTool "get_spot_coordinates"
      "Get GPS coordinates for a surf spot"
      (mkInputSchema "object"
         [ ("spot_name", mkProperty "string" "Name of the surf spot");
           ("location", mkProperty "string" "Location or region") ]
         ["spot_name"]) ].

Definition marine_url : string := "https://marine-api.open-meteo.com/v1/marine".
Definition forecast_url : string := "https://api.open-meteo.com/v1/forecast".
Definition geocoding_url : string := "https://geocoding-api.open-meteo.com/v1/search".

Definition mcp_marine_params (lat lon : json) : list (string * pyval) :=
  [ ("latitude", VJson lat);
    ("longitude", VJson lon);
    ("hourly", pstr "wave_height,wave_direction,wave_period,wind_wave_height,swell_wave_height,swell_wave_direction,swell_wave_period");
    ("daily", pstr "wave_height_max,wave_direction_dominant,wave_period_max");
    ("current", pstr "wave_height,wave_direction,wave_period");
    ("timezone", pstr "auto") ].

Definition mcp_wind_params (lat lon : json) : list (string * pyval) :=
  [ ("latitude", VJson lat);
    ("longitude", VJson lon);
    ("hourly", pstr "wind_speed_10m,wind_direction_10m");
    ("current", pstr "wind_speed_10m,wind_direction_10m");
    ("timezone", pstr "auto") ].

(** [data.get("current", {}).get(key)] *)
Definition current_reading (data : json) (key : string) : result json :=
  cur ← py_get data "current" (JObj []); py_get cur key JNull.

(** [data.get("hourly", {}).get(key, [])[:24]] *)
Definition hourly_series (data : json) (key : string) : result json :=
  hourly ← py_get data "hourly" (JObj []);
  series ← py_get hourly key (JArr []);
  py_slice 24 series.

(** The dict literal bound to [result] in [get_weather_forecast]; its
    entries are evaluated top to bottom. *)
Definition format_forecast (lat lon : json) (timestamp : string)
    (marine_data wind_data : json) : result json :=
  wave_height_m ← current_reading marine_data "wave_height";
  wave_direction ← current_reading marine_data "wave_direction";
  wave_period_s ← current_reading marine_data "wave_period";
  wind_speed_kmh ← current_reading wind_data "wind_speed_10m";
  wind_direction ← current_reading wind_data "wind_direction_10m";
  times ← hourly_series marine_data "time";
  wave_heights ← hourly_series marine_data "wave_height";
  swell_heights ← hourly_series marine_data "swell_wave_height";
  wind_speeds ← hourly_series wind_data "wind_speed_10m";
  wind_directions ← hourly_series wind_data "wind_direction_10m";
  daily_summary ← py_get marine_data "daily" (JObj []);
  mret (JObj
    [ ("location", JObj [("latitude", lat); ("longitude", lon)]);
      ("timestamp", JStr timestamp);
      ("current_conditions", JObj
         [ ("wave_height_m", wave_height_m);
           ("wave_direction", wave_direction);
           ("wave_period_s", wave_period_s);
           ("wind_speed_kmh", wind_speed_kmh);
           ("wind_direction", wind_direction) ]);
      ("hourly_forecast", JObj
         [ ("times", times);
           ("wave_heights", wave_heights);
           ("swell_heights", swell_heights);
           ("wind_speeds", wind_speeds);
           ("wind_directions", wind_directions) ]);
      ("daily_summary", daily_summary) ]).

(** The body of the [try] of [get_weather_forecast], up to [result]. *)
Definition weather_document (lat lon : json) : io json :=
  response ← client_get marine_url (mcp_marine_params lat lon);
  _ ← raise_for_status response;
  marine_data ← response_json response;
  response2 ← client_get forecast_url (mcp_wind_params lat lon);
  _ ← raise_for_status response2;
  wind_data ← response_json response2;
  timestamp ← datetime_now_isoformat;
  lift (format_forecast lat lon timestamp marine_data wind_data).

Definition get_weather_forecast (lat lon : json) : io (list TextContent) :=
  try_except
    (result ← weather_document lat lon;
     mret [mkTextContent "text" (JsonDumps result 2)])
    (fun e =>
       mret [mkTextContent "text"
               (Plain ("Error fetching weather data: " +:+ str_exn e))]).

Definition nl : string := String (ascii_of_nat 10) EmptyString.

Definition search_surf_spot_info (spot_name location : json) : io (list TextContent) :=
  let query := py_str spot_name +:+ " surf spot " +:+ py_str location
               +:+ " best conditions optimal swell wind direction" in
  mret [mkTextContent "text"
          (Plain ("Search query prepared: '" +:+ query +:+ "'" +:+ nl +:+ nl
                  +:+ "Note: In production, this would use a web search API or scrape surf forecasting sites like Surfline, Magic Seaweed, or local surf reports to find optimal conditions for "
                  +:+ py_str spot_name +:+ "."))].

(** [v[k]] for a [str] key *)
Definition py_item (v : json) (k : string) : result json :=
  match v with
  | JObj fields =>
      match dict_lookup k fields with
      | Some x => Ok x
      | None => Raised (KeyError k)
      end
  | JArr _ => Raised (TypeError "list indices must be integers or slices, not str")
  | JStr _ => Raised (TypeError "string indices must be integers, not 'str'")
  | _ => Raised (TypeError ("'" +:+ type_name v +:+ "' object is not subscriptable"))
  end.

(** The items a [for] loop draws from [v]. *)
Definition py_iter (v : json) : result (list json) :=
  match v with
  | JArr items => Ok items
  | JStr s => Ok (map (fun c => JStr (String c EmptyString)) (list_ascii_of_string s))
  | JObj fields => Ok (map (fun kv => JStr (fst kv)) fields)
  | _ => Raised (TypeError ("'" +:+ type_name v +:+ "' object is not iterable"))
  end.

(** The dict appended to [results] for one entry of the loop. *)
Definition candidate (entry : json) : result json :=
  n ← py_get entry "name" JNull;
  la ← py_get entry "latitude" JNull;
  lo ← py_get entry "longitude" JNull;
  co ← py_get entry "country" JNull;
  ad ← py_get entry "admin1" JNull;
  mret (JObj [ ("name", n); ("latitude", la); ("longitude", lo);
               ("country", co); ("admin1", ad) ]).

Definition get_spot_coordinates (spot_name location : json) : io (list TextContent) :=
  let query := py_str spot_name +:+ " " +:+ py_str location in
  try_except
    (response ← client_get geocoding_url
                  [ ("name", pstr query); ("count", VJson (JNum "5"));
                    ("language", pstr "en"); ("format", pstr "json") ];
     _ ← raise_for_status response;
     data ← response_json response;
     found ← lift (py_get data "results" JNull);
     if py_truthy found then
       results ← lift (all ← py_item data "results";
                       first3 ← py_slice 3 all;
                       items ← py_iter first3;
                       mapM candidate items);
       mret [mkTextContent "text"
               (JsonDumps (JObj [("query", JStr query); ("results", JArr results)]) 2)]
     else
       mret [mkTextContent "text" (Plain ("No coordinates found for " +:+ query))])
    (fun e =>
       mret [mkTextContent "text"
               (Plain ("Error getting coordinates: " +:+ str_exn e))]).

(** [arguments[k]] *)
Definition argument (arguments : gmap string json) (k : string) : result json :=
  match arguments !! k with
  | Some v => Ok v
  | None => Raised (KeyError k)
  end.

(** [arguments.get(k, dflt)] *)
Definition argument_or (arguments : gmap string json) (k : string) (dflt : json) : json :=
  default dflt (arguments !! k).

Definition call_tool (name : string) (arguments : gmap string json)
    : io (list TextContent) :=
  if String.eqb name "get_weather_forecast" then
    latitude ← lift (argument arguments "latitude");
    longitude ← lift (argument arguments "longitude");
    get_weather_forecast latitude longitude
  else if String.eqb name "search_surf_spot_info" then
    spot_name ← lift (argument arguments "spot_name");
    search_surf_spot_info spot_name (argument_or arguments "location" (JStr EmptyString))
  else if String.eqb name "get_spot_coordinates" then
    spot_name ← lift (argument arguments "spot_name");
    get_spot_coordinates spot_name (argument_or arguments "location" (JStr EmptyString))
  else
    mret [mkTextContent "text" (Plain ("Unknown tool: " +:+ name))].

(** ** gradio.py *)

Record Coords : Type := mkCoords { lat : float; lon : float }.

Definition SURF_SPOTS : gmap string Coords :=
  list_to_map
    [ ("Bells Beach, Australia", mkCoords (-38.3667) 144.2833);
      ("Pipeline, Hawaii", mkCoords 21.6641 (-158.0533));
      ("Jeffreys Bay, South Africa", mkCoords (-34.0546) 24.9096);
      ("Teahupo'o, Tahiti", mkCoords (-17.8744) (-149.2661));
      ("Mavericks, California", mkCoords 37.4936 (-122.4967));
      ("Cloudbreak, Fiji", mkCoords (-17.7542) 177.0954);
      ("Uluwatu, Bali", mkCoords (-8.8293) 115.0846) ].

(** The dict [{"marine": ..., "wind": ...}] that [get_marine_weather] returns. *)
Record WeatherData : Type := mkWeatherData { marine : json; wind : json }.

Definition gradio_marine_params (la lo : float) : list (string * pyval) :=
  [ ("latitude", VFloat la);
    ("longitude", VFloat lo);
    ("hourly", pstr "wave_height,wave_direction,wave_period,swell_wave_height,swell_wave_direction,swell_wave_period");
    ("current", pstr "wave_height,wave_direction,wave_period");
    ("timezone", pstr "auto") ].

Definition gradio_wind_params (la lo : float) : list (string * pyval) :=
  [ ("latitude", VFloat la);
    ("longitude", VFloat lo);
    ("hourly", pstr "wind_speed_10m,wind_direction_10m");
    ("current", pstr "wind_speed_10m,wind_direction_10m");
    ("timezone", pstr "auto") ].

Definition get_marine_weather (la lo : float) : io WeatherData :=
  marine_response ← client_get marine_url (gradio_marine_params la lo);
  marine_data ← response_json marine_response;
  wind_response ← client_get forecast_url (gradio_wind_params la lo);
  wind_data ← response_json wind_response;
  mret (mkWeatherData marine_data wind_data).

(** [data.get("current", {}).get(key, "N/A")] *)
Definition current_or_na (data : json) (key : string) : result json :=
  cur ← py_get data "current" (JObj []); py_get cur key (JStr "N/A").

(** [hourly.get(key, [])[:24]] *)
Definition next_24 (hourly : json) (key : string) : result json :=
  series ← py_get hourly key (JArr []); py_slice 24 series.

(** The f-string bound to [prompt]; its fields are evaluated in order. *)
Definition build_prompt (spot_name : string) (weather_data : WeatherData) : result string :=
  current_wave ← current_or_na (marine weather_data) "wave_height";
  current_period ← current_or_na (marine weather_data) "wave_period";
  current_wind ← current_or_na (wind weather_data) "wind_speed_10m";
  current_wind_dir ← current_or_na (wind weather_data) "wind_direction_10m";
  hourly_marine ← py_get (marine weather_data) "hourly" (JObj []);
  hourly_wind ← py_get (wind weather_data) "hourly" (JObj []);
  wave_heights ← next_24 hourly_marine "wave_height";
  swell_heights ← next_24 hourly_marine "swell_wave_height";
  wave_periods ← next_24 hourly_marine "wave_period";
  wind_speeds ← next_24 hourly_wind "wind_speed_10m";
  wind_directions ← next_24 hourly_wind "wind_direction_10m";
  mret ("You are an expert surf forecaster analyzing conditions for " +:+ spot_name +:+ ".

Current Conditions:
- Wave Height: " +:+ py_str current_wave +:+ "m
- Wave Period: " +:+ py_str current_period +:+ "s
- Wind Speed: " +:+ py_str current_wind +:+ " km/h
- Wind Direction: " +:+ py_str current_wind_dir +:+ "°

24-Hour Forecast Data:
Wave Heights (m): " +:+ py_str wave_heights +:+ "
Swell Heights (m): " +:+ py_str swell_heights +:+ "
Wave Periods (s): " +:+ py_str wave_periods +:+ "
Wind Speeds (km/h): " +:+ py_str wind_speeds +:+ "
Wind Directions (°): " +:+ py_str wind_directions +:+ "

Please provide:
1. **Overall Rating** (1-10 scale) with emoji
2. **Current Conditions Summary** - describe what surfers can expect right now
3. **Best Time to Surf** - when in the next 24 hours will conditions be optimal
4. **Detailed Analysis** - discuss swell quality, wind conditions, and wave period
5. **Recommendations** - skill level suited for these conditions and any safety concerns

Format your response as a clear, engaging surf report that both beginners and experienced surfers can understand.").

(** [client.messages.create(...)] followed by [response.content[0].text] *)
Definition create_message (prompt : string) : io string :=
  fun w => (messages_create w prompt, [EvGenerate prompt]).

Definition analyze_surf_conditions (spot_name : string) (weather_data : WeatherData)
    : io string :=
  prompt ← lift (build_prompt spot_name weather_data);
  try_except
    (create_message prompt)
    (fun e => mret ("Error generating surf report: " +:+ str_exn e)).

(** The f-string bound to [weather_summary], as a function of its five
    fields. *)
Definition weather_summary_text
    (wave_height wave_period wave_direction wind_speed wind_direction : json) : string :=
  "📊 Raw Weather Data:

🌊 Wave Height: " +:+ py_str wave_height +:+ "m
📏 Wave Period: " +:+ py_str wave_period +:+ "s
🧭 Wave Direction: " +:+ py_str wave_direction +:+ "°
💨 Wind Speed: " +:+ py_str wind_speed +:+ " km/h
🧭 Wind Direction: " +:+ py_str wind_direction +:+ "°
".

(** The statements from [current = ...] to [weather_summary = ...]. *)
Definition render_summary (weather_data : WeatherData) : result string :=
  current ← py_get (marine weather_data) "current" (JObj []);
  current_wind ← py_get (wind weather_data) "current" (JObj []);
  wave_height ← py_get current "wave_height" (JStr "N/A");
  wave_period ← py_get current "wave_period" (JStr "N/A");
  wave_direction ← py_get current "wave_direction" (JStr "N/A");
  wind_speed ← py_get current_wind "wind_speed_10m" (JStr "N/A");
  wind_direction ← py_get current_wind "wind_direction_10m" (JStr "N/A");
  mret (weather_summary_text wave_height wave_period wave_direction
          wind_speed wind_direction).

(** [bool(x)] for a float *)
Definition float_truthy (x : float) : bool := negb (PrimFloat.eqb x 0).

(** [bool(x)] for an [Optional[float]] *)
Definition optional_truthy (x : option float) : bool :=
  match x with
  | Some f => float_truthy f
  | None => false
  end.

Definition spot_not_found : string :=
  "❌ Spot not found. Please select from the dropdown or enter custom coordinates.".

(** The [if]/[elif]/[else] that determines the coordinates; [None] is the
    [else] branch.  ([location_info] is assigned and never read.) *)
Definition determine_coordinates (spot_name : string) (custom_lat custom_lon : option float)
    : option Coords :=
  match custom_lat, custom_lon with
  | Some la, Some lo =>
      if float_truthy la && float_truthy lo then Some (mkCoords la lo)
      else SURF_SPOTS !! spot_name
  | _, _ => SURF_SPOTS !! spot_name
  end.

Definition generate_surf_report (spot_name : string) (custom_lat custom_lon : option float)
    : io (string * string) :=
  try_except
    (match determine_coordinates spot_name custom_lat custom_lon with
     | None => mret (spot_not_found, EmptyString)
     | Some c =>
         weather_data ← get_marine_weather (lat c) (lon c);
         surf_report ← analyze_surf_conditions spot_name weather_data;
         weather_summary ← lift (render_summary weather_data);
         mret (surf_report, weather_summary)
     end)
    (fun e => mret ("❌ Error: " +:+ str_exn e, EmptyString)).

(** [float(s)] *)
Definition py_float (s : string) : io float := fun w => (float_of_str w s, []).

(** [float(s) if s else None] *)
Definition float_or_none (s : option string) : io (option float) :=
  match s with
  | Some t => if negb (String.eqb t EmptyString)
              then f ← py_float t; mret (Some f)
              else mret None
  | None => mret None
  end.

Definition sync_generate_report (spot : string) (la lo : option string)
    : io (string * string) :=
  custom_lat ← float_or_none la;
  custom_lon ← float_or_none lo;
  generate_surf_report spot custom_lat custom_lon.

(** ** Vocabulary of the properties *)

(** What one upstream client of mcp.py delivers: the request, the status
    check and the decoding of the body. *)
Definition fetched (w : World) (url : string) (params : list (string * pyval))
    : result json :=
  r ← http_get w url params;
  if is_success r then json_body r
  else Raised (LibraryError "HTTPStatusError" (status_message r)).

(** The same for gradio.py, which does not check the status. *)
Definition decoded (w : World) (url : string) (params : list (string * pyval))
    : result json :=
  r ← http_get w url params; json_body r.

(** The entry [k] of a dict, if [v] is a dict that has it. *)
Definition field (v : json) (k : string) : option json :=
  match v with
  | JObj fields => dict_lookup k fields
  | _ => None
  end.

Fixpoint path (v : json) (ks : list string) : option json :=
  match ks with
  | [] => Some v
  | k :: rest => match field v k with Some x => path x rest | None => None end
  end.

Definition is_dict (v : json) : bool :=
  match v with JObj _ => true | _ => false end.

Definition sliceable (v : json) : bool :=
  match v with JArr _ | JStr _ => true | _ => false end.

Definition absent_or (p : json -> bool) (o : option json) : bool :=
  match o with
  | None => true
  | Some v => p v
  end.

(** A body that is a dict in which [current] and [hourly], where present,
    are dicts and each of the [series] of [hourly], where present, is a
    list or a string: fields may be missing, and any leaf may be null. *)
Definition well_shaped (series : list string) (body : json) : bool :=
  is_dict body
  && absent_or is_dict (field body "current")
  && absent_or (fun h => is_dict h
                         && forallb (fun k => absent_or sliceable (field h k)) series)
               (field body "hourly").

Definition mcp_marine_series : list string := ["time"; "wave_height"; "swell_wave_height"].
Definition gradio_marine_series : list string :=
  ["wave_height"; "swell_wave_height"; "wave_period"].
Definition wind_series : list string := ["wind_speed_10m"; "wind_direction_10m"].

(** The current reading [key] of a body, [dflt] when [current] or the key
    is missing. *)
Definition reading (dflt : json) (body : json) (key : string) : json :=
  match field body "current" with
  | Some cur => default dflt (field cur key)
  | None => dflt
  end.

Definition truncated (v : json) : json :=
  match v with
  | JArr items => JArr (firstn 24 items)
  | JStr s => JStr (substring 0 24 s)
  | _ => v
  end.

(** The hourly series [key] of a body cut to 24 entries, empty when
    [hourly] or the key is missing. *)
Definition first_day (body : json) (key : string) : json :=
  match field body "hourly" with
  | Some h => truncated (default (JArr []) (field h key))
  | None => JArr []
  end.

Inductive source : Type := Marine | Wind.

(** Source, upstream key and normalized key of the five hourly series and
    of the five current readings of [get_weather_forecast]. *)
Definition hourly_table : list (source * string * string) :=
  [ (Marine, "time", "times");
    (Marine, "wave_height", "wave_heights");
    (Marine, "swell_wave_height", "swell_heights");
    (Wind, "wind_speed_10m", "wind_speeds");
    (Wind, "wind_direction_10m", "wind_directions") ].

Definition current_table : list (source * string * string) :=
  [ (Marine, "wave_height", "wave_height_m");
    (Marine, "wave_direction", "wave_direction");
    (Marine, "wave_period", "wave_period_s");
    (Wind, "wind_speed_10m", "wind_speed_kmh");
    (Wind, "wind_direction_10m", "wind_direction") ].

Definition body_of (s : source) (marine_data wind_data : json) : json :=
  match s with Marine => marine_data | Wind => wind_data end.

Definition error_content (prefix : string) (e : exn) : list TextContent :=
  [mkTextContent "text" (Plain (prefix +:+ str_exn e))].

Definition document_content (doc : json) : list TextContent :=
  [mkTextContent "text" (JsonDumps doc 2)].

(** ** Scenarios *)

Definition hours (n : nat) : list json :=
  map (fun i => JNum (pretty i)) (seq 0 n).

Definition marine_body : json :=
  JObj [ ("current", JObj [ ("wave_height", JNum "1.4");
                            ("wave_direction", JNum "215");
                            ("wave_period", JNull) ]);
         ("hourly", JObj [ ("time", JArr (hours 30));
                           ("wave_height", JArr [JNum "1.4"; JNull; JNum "1.6"]) ]) ].

Definition wind_body : json :=
  JObj [ ("current", JObj [ ("wind_speed_10m", JNum "12.5");
                            ("wind_direction_10m", JNum "270") ]);
         ("hourly", JObj [ ("wind_speed_10m", JArr (hours 30)) ]) ].

Definition ok_response (body : json) : Response :=
  mkResponse 200 EmptyString (Ok body).

Definition unavailable : Response :=
  mkResponse 503 "Server error '503 Service Unavailable'"
    (Ok (JObj [("error", JBool true)])).

Definition base_world (get : string -> list (string * pyval) -> result Response) : World :=
  mkWorld get "2025-06-01T08:00:00"
    (fun _ => Raised (LibraryError "AttributeError"
                        "'Client' object has no attribute 'messages'"))
    (fun s => if String.eqb s "0" then Ok 0%float
              else if String.eqb s "10" then Ok 10%float
              else Raised (LibraryError "ValueError"
                             ("could not convert string to float: " +:+ repr_str s))).

(** Both services answer. *)
Definition world_up : World :=
  base_world (fun url _ =>
    if String.eqb url marine_url then Ok (ok_response marine_body)
    else Ok (ok_response wind_body)).

(** The marine service answers 503, the wind service answers. *)
Definition world_marine_down : World :=
  base_world (fun url _ =>
    if String.eqb url marine_url then Ok unavailable
    else Ok (ok_response wind_body)).

(** The marine service answers, the connection to the wind service fails. *)
Definition world_wind_down : World :=
  base_world (fun url _ =>
    if String.eqb url marine_url then Ok (ok_response marine_body)
    else Raised (LibraryError "ConnectError" "All connection attempts failed")).

(** The marine service answers with a body that is not JSON. *)
Definition world_marine_garbled : World :=
  base_world (fun url _ =>
    if String.eqb url marine_url
    then Ok (mkResponse 200 EmptyString
               (Raised (LibraryError "JSONDecodeError"
                          "Expecting value: line 1 column 1 (char 0)")))
    else Ok (ok_response wind_body)).

Definition bells_lat : json := JNum "-38.3667".
Definition bells_lon : json := JNum "144.2833".

Definition marine_request (lat lon : json) : event :=
  EvGet marine_url (mcp_marine_params lat lon).
Definition wind_request (lat lon : json) : event :=
  EvGet forecast_url (mcp_wind_params lat lon).

Definition fetch_error : string := "Error fetching weather data: ".

Definition gradio_marine_request (la lo : float) : event :=
  EvGet marine_url (gradio_marine_params la lo).
Definition gradio_wind_request (la lo : float) : event :=
  EvGet forecast_url (gradio_wind_params la lo).

(** The document [get_weather_forecast] serialises for two well-shaped
    bodies, written with the tables. *)
Definition normalized (lat lon : json) (timestamp : string)
    (marine_data wind_data : json) : json :=
  JObj
    [ ("location", JObj [("latitude", lat); ("longitude", lon)]);
      ("timestamp", JStr timestamp);
      ("current_conditions",
       JObj (map (fun e => (snd e, reading JNull (body_of (fst (fst e)) marine_data wind_data)
                                     (snd (fst e))))
                 current_table));
      ("hourly_forecast",
       JObj (map (fun e => (snd e, first_day (body_of (fst (fst e)) marine_data wind_data)
                                     (snd (fst e))))
                 hourly_table));
      ("daily_summary", default (JObj []) (field marine_data "daily")) ].

Definition series_of (s : source) : list string :=
  match s with Marine => mcp_marine_series | Wind => wind_series end.

(** Both services answer, with most fields missing. *)
Definition sparse_wind_body : json :=
  JObj [ ("current", JObj [("wind_speed_10m", JNull)]) ].

Definition world_sparse : World :=
  base_world (fun url _ =>
    if String.eqb url marine_url then Ok (ok_response (JObj []))
    else Ok (ok_response sparse_wind_body)).

(** Both services answer; the marine body has [null] for [current]. *)
Definition null_current_body : json :=
  JObj [ ("current", JNull);
         ("hourly", JObj [ ("time", JArr (hours 30)) ]) ].

Definition world_null_current : World :=
  base_world (fun url _ =>
    if String.eqb url marine_url then Ok (ok_response null_current_body)
    else Ok (ok_response wind_body)).

(** The summary of the current conditions of two bodies, with N/A for
    what is missing. *)
Definition summary_of (weather_data : WeatherData) : string :=
  let na := JStr "N/A" in
  weather_summary_text
    (reading na (marine weather_data) "wave_height")
    (reading na (marine weather_data) "wave_period")
    (reading na (marine weather_data) "wave_direction")
    (reading na (wind weather_data) "wind_speed_10m")
    (reading na (wind weather_data) "wind_direction_10m").

Definition report_error : string := "Error generating surf report: ".
Definition pipeline_error : string := "❌ Error: ".

Definition only_longitude : gmap string json := {[ "longitude" := bells_lon ]}.

Definition bells : string := "Bells Beach, Australia".

Definition bells_coords : Coords := mkCoords (-38.3667) 144.2833.

Definition client_has_no_messages : exn :=
  LibraryError "AttributeError" "'Client' object has no attribute 'messages'".

(** ** Vocabulary of the geocoding handler *)

Definition geocoding_params (query : string) : list (string * pyval) :=
  [ ("name", pstr query); ("count", VJson (JNum "5"));
    ("language", pstr "en"); ("format", pstr "json") ].

Definition geocoding_request (query : string) : event :=
  EvGet geocoding_url (geocoding_params query).

(** The text searched for: [f"{spot_name} {location}"]. *)
Definition geocoding_query (spot_name location : json) : string :=
  py_str spot_name +:+ " " +:+ py_str location.

Definition coordinates_error : string := "Error getting coordinates: ".

(** The five keys kept of one geocoder entry that is a dict. *)
Definition candidate_of (entry : json) : json :=
  JObj [ ("name", default JNull (field entry "name"));
         ("latitude", default JNull (field entry "latitude"));
         ("longitude", default JNull (field entry "longitude"));
         ("country", default JNull (field entry "country"));
         ("admin1", default JNull (field entry "admin1")) ].

(** What [get_spot_coordinates] makes of a decoded body. *)
Definition geocoding_reply (query : string) (data : json) : result (list TextContent) :=
  found ← py_get data "results" JNull;
  if py_truthy found then
    results ← (all ← py_item data "results";
               first3 ← py_slice 3 all;
               items ← py_iter first3;
               mapM candidate items);
    mret (document_content (JObj [("query", JStr query); ("results", JArr results)]))
  else
    mret [mkTextContent "text" (Plain ("No coordinates found for " +:+ query))].

Definition place (n country : string) : json :=
  JObj [ ("name", JStr n); ("latitude", JNum "-38.37"); ("longitude", JNum "144.28");
         ("country", JStr country); ("elevation", JNum "12.0") ].

Definition four_places : list json :=
  [ place "Bells Beach" "Australia"; place "Bells" "United States";
    place "Bell" "Germany"; place "Belle" "France" ].

(** The geocoder answers with four places. *)
Definition world_geocoder : World :=
  base_world (fun _ _ => Ok (ok_response (JObj [("results", JArr four_places)]))).

(** The geocoder answers without [results]. *)
Definition world_no_match : World :=
  base_world (fun _ _ => Ok (ok_response (JObj [("generationtime_ms", JNum "0.5")]))).

Definition connection_failed : exn :=
  LibraryError "ConnectError" "All connection attempts failed".

(** No service can be reached. *)
Definition world_offline : World := base_world (fun _ _ => Raised connection_failed).

Definition torquay : json := JStr "Torquay".
Definition victoria : json := JStr "Victoria".

(** The geocoder answers with a place and a null entry. *)
Definition world_odd_entry : World :=
  base_world (fun _ _ =>
    Ok (ok_response (JObj [("results", JArr [place "Bells Beach" "Australia"; JNull])]))).

Definition unknown_tool_content (tool_name : string) : list TextContent :=
  [mkTextContent "text" (Plain ("Unknown tool: " +:+ tool_name))].

Definition no_location : json := JStr EmptyString.

Definition spot_only : gmap string json := {[ "spot_name" := torquay ]}.


(** The summary of two bodies without current readings. *)
Definition summary_without_readings : string :=
  let na := JStr "N/A" in weather_summary_text na na na na na.

Definition error_reply : json :=
  JObj [ ("error", JBool true); ("reason", JStr "Latitude must be in range of -90 to 90") ].

(** Both services refuse the request with status 400 and a JSON reply. *)
Definition world_refusing : World :=
  base_world (fun _ _ => Ok (mkResponse 400 "Client error '400 Bad Request'"
                               (Ok error_reply))).

(** ** The registered handler *)

Record CallToolResult : Type := mkCallToolResult {
  content : list TextContent;
  isError : bool }.

Definition error_result (message : string) : CallToolResult :=
  mkCallToolResult [mkTextContent "text" (Plain message)] true.

(** The JSON Schema [type] keyword for the two types of the catalog. *)
Definition has_json_type (ty : string) (v : json) : bool :=
  if String.eqb ty "number" then match v with JNum _ => true | _ => false end
  else if String.eqb ty "string" then match v with JStr _ => true | _ => false end
  else true.

(** The first required argument that is missing. *)
Fixpoint first_missing (required_keys : list string) (arguments : gmap string json)
    : option string :=
  match required_keys with
  | [] => None
  | k :: rest =>
      match arguments !! k with
      | None => Some k
      | Some _ => first_missing rest arguments
      end
  end.

(** The first declared argument that is present with another type. *)
Fixpoint first_mistyped (declared : list (string * Property))
    (arguments : gmap string json) : option (json * string) :=
  match declared with
  | [] => None
  | (k, p) :: rest =>
      match arguments !! k with
      | Some v => if has_json_type (prop_type p) v then first_mistyped rest arguments
                  else Some (v, prop_type p)
      | None => first_mistyped rest arguments
      end
  end.

(** The message of the schema validation of the arguments against an
    [inputSchema], [None] when they are accepted: a missing required
    argument is reported before a wrong type. *)
Definition validation_error (schema : InputSchema) (arguments : gmap string json)
    : option string :=
  match first_missing (required schema) arguments with
  | Some k => Some (repr_str k +:+ " is a required property")
  | None =>
      match first_mistyped (properties schema) arguments with
      | Some (v, ty) => Some (py_repr v +:+ " is not of type " +:+ repr_str ty)
      | None => None
      end
  end.

(** The catalog entry with the given name. *)
Definition tool_definition (tool_name : string) : option Tool :=
  find (fun t => String.eqb (name t) tool_name) list_tools.

(** Modelled from the spec: the handler that the decorator
    [@app.call_tool()] on line 84 of mcp.py registers for the coroutine
    [func]; the decorator is code of the server library, which is not
    among the sources.  Spec 4.4: "Each registered tool validates that
    its required arguments are present before invoking its handler; a
    missing required argument is reported as a structured error
    response, not a crash."  The handler takes the arguments of the
    request (an empty dict when there are none), looks the tool up in
    what [list_tools] returns, validates the arguments against its
    [inputSchema] and answers an error result without calling [func] when
    they are refused; otherwise it awaits [func] and wraps the content,
    and it turns an exception of [func] into an error result with the
    text of the exception. *)
Definition call_tool_handler
    (func : string -> gmap string json -> io (list TextContent))
    (tool_name : string) (arguments : option (gmap string json)) : io CallToolResult :=
  let arguments := default ∅ arguments in
  match match tool_definition tool_name with
        | Some tool => validation_error (inputSchema tool) arguments
        | None => None
        end with
  | Some message => mret (error_result ("Input validation error: " +:+ message))
  | None =>
      try_except
        (results ← func tool_name arguments;
         mret (mkCallToolResult results false))
        (fun e => mret (error_result (str_exn e)))
  end.


(** What a line of the summary must show for the reading [key] of a
    body: N/A when it is missing, None for null, the number or the text
    for a number or a string, True or False for a boolean. *)
Definition prints_as (body : json) (key : string) (shown : string) : Prop :=
  match field body "current" with
  | None => shown = "N/A"
  | Some cur =>
      match field cur key with
      | None => shown = "N/A"
      | Some JNull => shown = "None"
      | Some (JBool true) => shown = "True"
      | Some (JBool false) => shown = "False"
      | Some (JNum r) => shown = r
      | Some (JStr s) => shown = s
      | Some _ => True
      end
  end.

(** A marine body with a null wave period and no wave direction. *)
Definition marine_without_direction : json :=
  JObj [ ("current", JObj [ ("wave_height", JNum "1.4"); ("wave_period", JNull) ]) ].

(** ** Runs of the aggregation *)

Ltac unfold_io :=
  cbv beta iota zeta delta
    [run mbind mret io_bind io_ret try_except client_get raise_for_status
     response_json datetime_now_isoformat lift fetched decoded
     result_bind result_ret rbind] in *.

(** The [try] body of [get_weather_forecast]: the marine request comes
    first, and the wind request only after the marine body was decoded. *)
Lemma weather_document_run (w : World) (lat lon : json) :
  run (weather_document lat lon) w =
  match fetched w marine_url (mcp_marine_params lat lon) with
  | Raised e => (Raised e, [marine_request lat lon])
  | Ok marine_data =>
      match fetched w forecast_url (mcp_wind_params lat lon) with
      | Raised e => (Raised e, [marine_request lat lon; wind_request lat lon])
      | Ok wind_data =>
          (format_forecast lat lon (now_isoformat w) marine_data wind_data,
           [marine_request lat lon; wind_request lat lon])
      end
  end.
Proof.
  unfold weather_document, marine_request, wind_request. unfold_io.
  destruct (http_get w marine_url _) as [r1 | e1]; [| reflexivity].
  destruct (is_success r1); [| reflexivity].
  destruct (json_body r1) as [m | e1]; [| reflexivity].
  destruct (http_get w forecast_url _) as [r2 | e2]; [| reflexivity].
  destruct (is_success r2); [| reflexivity].
  destruct (json_body r2) as [wd | e2]; [| reflexivity].
  simpl. destruct (format_forecast _ _ _ _ _); reflexivity.
Qed.

Lemma get_weather_forecast_run (w : World) (lat lon : json) :
  run (get_weather_forecast lat lon) w =
  match run (weather_document lat lon) w with
  | (Ok doc, t) => (Ok (document_content doc), t)
  | (Raised e, t) => (Ok (error_content fetch_error e), t)
  end.
Proof.
  unfold get_weather_forecast, document_content, error_content, fetch_error.
  unfold_io.
  destruct (weather_document lat lon w) as [[doc | e] t]; simpl;
    rewrite ?app_nil_r; reflexivity.
Qed.

Lemma get_weather_forecast_returns (w : World) (lat lon : json) :
  exists c t, run (get_weather_forecast lat lon) w = (Ok c, t).
Proof.
  rewrite get_weather_forecast_run.
  destruct (run (weather_document lat lon) w) as [[doc | e] t]; eauto.
Qed.

(** C1 (as amended): [get_weather_forecast] never raises, and a failure of
    either client is a failure of the whole call.  When the marine client
    fails the result is the one text "Error fetching weather data: ..."
    with the marine error and the wind service is not asked; when the
    marine client succeeds and the wind client fails the result is the
    same kind of text with the wind error.  No document is returned in
    either case. *)
Theorem one_failure_fails_the_call (w : World) (lat lon : json) :
  (exists c t, run (get_weather_forecast lat lon) w = (Ok c, t))
  /\ (forall e,
        fetched w marine_url (mcp_marine_params lat lon) = Raised e ->
        run (get_weather_forecast lat lon) w
        = (Ok (error_content fetch_error e), [marine_request lat lon]))
  /\ (forall marine_data e,
        fetched w marine_url (mcp_marine_params lat lon) = Ok marine_data ->
        fetched w forecast_url (mcp_wind_params lat lon) = Raised e ->
        run (get_weather_forecast lat lon) w
        = (Ok (error_content fetch_error e),
           [marine_request lat lon; wind_request lat lon])).
Proof.
  split; [apply get_weather_forecast_returns |].
  split; intros.
  - rewrite get_weather_forecast_run, weather_document_run, H. reflexivity.
  - rewrite get_weather_forecast_run, weather_document_run, H, H0. reflexivity.
Qed.

Lemma one_failure_fails_the_call_witness :
  run (get_weather_forecast bells_lat bells_lon) world_marine_down
  = (Ok (error_content fetch_error
           (LibraryError "HTTPStatusError" "Server error '503 Service Unavailable'")),
     [marine_request bells_lat bells_lon])
  /\ run (get_weather_forecast bells_lat bells_lon) world_wind_down
     = (Ok (error_content fetch_error
              (LibraryError "ConnectError" "All connection attempts failed")),
        [marine_request bells_lat bells_lon; wind_request bells_lat bells_lon]).
Proof.
  split.
  - apply (proj1 (proj2 (one_failure_fails_the_call
                           world_marine_down bells_lat bells_lon))).
    reflexivity.
  - apply (proj2 (proj2 (one_failure_fails_the_call
                           world_wind_down bells_lat bells_lon)) marine_body).
    + reflexivity.
    + reflexivity.
Defined.

(** C1 (as stated) fails: with the marine service answering 503 and the
    wind service answering, exactly one client fails and no document is
    returned. *)
Lemma marine_down_no_document :
  (exists e, fetched world_marine_down marine_url
               (mcp_marine_params bells_lat bells_lon) = Raised e)
  /\ (exists wind_data, fetched world_marine_down forecast_url
                          (mcp_wind_params bells_lat bells_lon) = Ok wind_data)
  /\ ~ (exists doc t,
          run (get_weather_forecast bells_lat bells_lon) world_marine_down
          = (Ok (document_content doc), t)).
Proof.
  split; [eexists; reflexivity |].
  split; [eexists; reflexivity |].
  intros (doc & t & H). vm_compute in H. discriminate H.
Qed.

Lemma get_marine_weather_run (w : World) (la lo : float) :
  run (get_marine_weather la lo) w =
  match decoded w marine_url (gradio_marine_params la lo) with
  | Raised e => (Raised e, [gradio_marine_request la lo])
  | Ok marine_data =>
      match decoded w forecast_url (gradio_wind_params la lo) with
      | Raised e =>
          (Raised e, [gradio_marine_request la lo; gradio_wind_request la lo])
      | Ok wind_data =>
          (Ok (mkWeatherData marine_data wind_data),
           [gradio_marine_request la lo; gradio_wind_request la lo])
      end
  end.
Proof.
  unfold get_marine_weather, gradio_marine_request, gradio_wind_request.
  unfold_io.
  destruct (http_get w marine_url _) as [r1 | e1]; [| reflexivity].
  destruct (json_body r1) as [m | e1]; [| reflexivity].
  destruct (http_get w forecast_url _) as [r2 | e2]; [| reflexivity].
  destruct (json_body r2) as [wd | e2]; reflexivity.
Qed.

(** C2 (as amended): the two fetches are a sequential chain.  In both
    modules the marine request is issued first; the wind request is
    issued only once the marine response has been received and decoded
    (and, in mcp.py, has passed the status check), and not at all when
    the marine client fails.  The merge happens only after both clients
    have delivered a body. *)
Theorem fetches_are_chained (w : World) :
  (forall lat lon,
     snd (run (get_weather_forecast lat lon) w) =
     marine_request lat lon ::
       match fetched w marine_url (mcp_marine_params lat lon) with
       | Ok _ => [wind_request lat lon]
       | Raised _ => []
       end)
  /\ (forall la lo,
        snd (run (get_marine_weather la lo) w) =
        gradio_marine_request la lo ::
          match decoded w marine_url (gradio_marine_params la lo) with
          | Ok _ => [gradio_wind_request la lo]
          | Raised _ => []
          end)
  /\ (forall lat lon doc t,
        run (get_weather_forecast lat lon) w = (Ok (document_content doc), t) ->
        exists marine_data wind_data,
          fetched w marine_url (mcp_marine_params lat lon) = Ok marine_data
          /\ fetched w forecast_url (mcp_wind_params lat lon) = Ok wind_data
          /\ format_forecast lat lon (now_isoformat w) marine_data wind_data = Ok doc)
  /\ (forall la lo weather_data t,
        run (get_marine_weather la lo) w = (Ok weather_data, t) ->
        decoded w marine_url (gradio_marine_params la lo) = Ok (marine weather_data)
        /\ decoded w forecast_url (gradio_wind_params la lo) = Ok (wind weather_data)).
Proof.
  repeat split.
  - intros lat lon.
    rewrite get_weather_forecast_run, weather_document_run.
    destruct (fetched w marine_url _) as [m | e]; [| reflexivity].
    destruct (fetched w forecast_url _) as [wd | e]; [| reflexivity].
    destruct (format_forecast _ _ _ _ _); reflexivity.
  - intros la lo. rewrite get_marine_weather_run.
    destruct (decoded w marine_url _) as [m | e]; [| reflexivity].
    destruct (decoded w forecast_url _) as [wd | e]; reflexivity.
  - intros lat lon doc t.
    rewrite get_weather_forecast_run, weather_document_run.
    destruct (fetched w marine_url _) as [m | e]; [| discriminate].
    destruct (fetched w forecast_url _) as [wd | e]; [| discriminate].
    destruct (format_forecast _ _ _ _ _) as [d | e] eqn:Hdoc; [| discriminate].
    intros H. injection H as Hd _. subst d. eauto.
  - rewrite get_marine_weather_run in H.
    destruct (decoded w marine_url _) as [m | e]; [| discriminate].
    destruct (decoded w forecast_url _) as [wd | e]; [| discriminate].
    injection H as H _. subst weather_data. reflexivity.
  - rewrite get_marine_weather_run in H.
    destruct (decoded w marine_url _) as [m | e]; [| discriminate].
    destruct (decoded w forecast_url _) as [wd | e]; [| discriminate].
    injection H as H _. subst weather_data. reflexivity.
Qed.

Lemma fetches_are_chained_witness :
  exists marine_data wind_data doc,
    fetched world_up marine_url (mcp_marine_params bells_lat bells_lon) = Ok marine_data
    /\ fetched world_up forecast_url (mcp_wind_params bells_lat bells_lon) = Ok wind_data
    /\ format_forecast bells_lat bells_lon (now_isoformat world_up) marine_data wind_data
       = Ok doc
    /\ decoded world_up marine_url (gradio_marine_params 0 10) = Ok marine_body.
Proof.
  destruct (fetches_are_chained world_up) as (_ & _ & Hmcp & Hgradio).
  destruct (Hmcp bells_lat bells_lon
              (match format_forecast bells_lat bells_lon (now_isoformat world_up)
                       marine_body wind_body with
               | Ok d => d
               | Raised _ => JNull
               end)
              [marine_request bells_lat bells_lon; wind_request bells_lat bells_lon]
              eq_refl)
    as (m & wd & Hm & Hwd & Hdoc).
  exists m, wd. eexists. split; [exact Hm |]. split; [exact Hwd |].
  split; [exact Hdoc |].
  exact (proj1 (Hgradio 0%float 10%float (mkWeatherData marine_body wind_body)
                  [gradio_marine_request 0 10; gradio_wind_request 0 10] eq_refl)).
Defined.

(** C2 (as stated) fails: when the marine service answers 503 (mcp.py) or
    sends a body that is not JSON (gradio.py), the wind service, which
    would answer, is never asked. *)
Lemma marine_down_wind_not_fetched :
  snd (run (get_weather_forecast bells_lat bells_lon) world_marine_down)
  = [marine_request bells_lat bells_lon]
  /\ snd (run (get_marine_weather 0 10) world_marine_garbled)
     = [gradio_marine_request 0 10]
  /\ (exists wind_data,
        fetched world_marine_down forecast_url (mcp_wind_params bells_lat bells_lon)
        = Ok wind_data)
  /\ ~ In (wind_request bells_lat bells_lon)
         (snd (run (get_weather_forecast bells_lat bells_lon) world_marine_down)).
Proof.
  split; [reflexivity |]. split; [reflexivity |].
  split; [eexists; reflexivity |].
  intros [H | []]. discriminate H.
Qed.

(** ** The normalized document *)

Lemma well_shaped_inv (series : list string) (body : json) :
  well_shaped series body = true ->
  exists fields,
    body = JObj fields
    /\ absent_or is_dict (dict_lookup "current" fields) = true
    /\ absent_or (fun h => is_dict h
                           && forallb (fun k => absent_or sliceable (field h k)) series)
                 (dict_lookup "hourly" fields) = true.
Proof.
  unfold well_shaped. intros H.
  apply andb_prop in H as [H Hhourly]. apply andb_prop in H as [Hdict Hcur].
  destruct body; try discriminate Hdict. eauto.
Qed.

Lemma current_reading_ok (series : list string) (body : json) (key : string) :
  well_shaped series body = true ->
  current_reading body key = Ok (reading JNull body key).
Proof.
  intros H. apply well_shaped_inv in H as (fields & -> & Hcur & _).
  unfold current_reading, reading. simpl.
  destruct (dict_lookup "current" fields) as [cur |]; simpl.
  - destruct cur; try discriminate Hcur. simpl.
    destruct (dict_lookup key fields0); reflexivity.
  - reflexivity.
Qed.

Lemma hourly_series_ok (series : list string) (body : json) (key : string) :
  well_shaped series body = true ->
  In key series ->
  hourly_series body key = Ok (first_day body key).
Proof.
  intros H Hkey. apply well_shaped_inv in H as (fields & -> & _ & Hhourly).
  unfold hourly_series, first_day. simpl.
  destruct (dict_lookup "hourly" fields) as [h |]; simpl; [| reflexivity].
  simpl in Hhourly. apply andb_prop in Hhourly as [Hdict Hall].
  destruct h; try discriminate Hdict. simpl.
  rewrite forallb_forall in Hall. specialize (Hall key Hkey). simpl in Hall.
  destruct (dict_lookup key fields0) as [v |]; simpl; [| reflexivity].
  destruct v; try discriminate Hall; reflexivity.
Qed.

Lemma format_forecast_ok (lat lon : json) (timestamp : string)
    (marine_data wind_data : json) :
  well_shaped mcp_marine_series marine_data = true ->
  well_shaped wind_series wind_data = true ->
  format_forecast lat lon timestamp marine_data wind_data
  = Ok (normalized lat lon timestamp marine_data wind_data).
Proof.
  intros Hm Hw. unfold format_forecast.
  rewrite !(current_reading_ok _ marine_data) by exact Hm.
  rewrite !(current_reading_ok _ wind_data) by exact Hw.
  rewrite !(hourly_series_ok mcp_marine_series marine_data)
    by (exact Hm || (simpl; tauto)).
  rewrite !(hourly_series_ok wind_series wind_data)
    by (exact Hw || (simpl; tauto)).
  apply well_shaped_inv in Hm as (fields & -> & _ & _).
  reflexivity.
Qed.

(** Two well-shaped bodies always give the document. *)
Lemma get_weather_forecast_ok (w : World) (lat lon marine_data wind_data : json) :
  fetched w marine_url (mcp_marine_params lat lon) = Ok marine_data ->
  fetched w forecast_url (mcp_wind_params lat lon) = Ok wind_data ->
  well_shaped mcp_marine_series marine_data = true ->
  well_shaped wind_series wind_data = true ->
  run (get_weather_forecast lat lon) w
  = (Ok (document_content
           (normalized lat lon (now_isoformat w) marine_data wind_data)),
     [marine_request lat lon; wind_request lat lon]).
Proof.
  intros Hm Hw Sm Sw.
  rewrite get_weather_forecast_run, weather_document_run, Hm, Hw.
  rewrite format_forecast_ok by assumption. reflexivity.
Qed.

Ltac table_cases H :=
  simpl in H;
  repeat (destruct H as [H | H]; [injection H as <- <- <- |]);
  [.. | destruct H].

Lemma hourly_series_of_list (body hourly : json) (key : string) (items : list json) :
  field body "hourly" = Some hourly ->
  field hourly key = Some (JArr items) ->
  hourly_series body key = Ok (JArr (firstn 24 items)).
Proof.
  intros Hhourly Hkey. unfold hourly_series.
  destruct body; try discriminate Hhourly. simpl in Hhourly |- *. rewrite Hhourly.
  destruct hourly; try discriminate Hkey. simpl in Hkey |- *. rewrite Hkey.
  reflexivity.
Qed.

(** What a returned document holds for each hourly series. *)
Lemma format_forecast_hourly (lat lon : json) (timestamp : string)
    (marine_data wind_data doc : json) :
  format_forecast lat lon timestamp marine_data wind_data = Ok doc ->
  forall s key out,
    In (s, key, out) hourly_table ->
    exists v, hourly_series (body_of s marine_data wind_data) key = Ok v
              /\ path doc ["hourly_forecast"; out] = Some v.
Proof.
  unfold format_forecast. intros H s key out Hin.
  repeat match type of H with
         | context [current_reading ?b ?k] =>
             destruct (current_reading b k); [| discriminate H]
         end.
  destruct (hourly_series marine_data "time") eqn:E1; [| discriminate H].
  destruct (hourly_series marine_data "wave_height") eqn:E2; [| discriminate H].
  destruct (hourly_series marine_data "swell_wave_height") eqn:E3; [| discriminate H].
  destruct (hourly_series wind_data "wind_speed_10m") eqn:E4; [| discriminate H].
  destruct (hourly_series wind_data "wind_direction_10m") eqn:E5; [| discriminate H].
  destruct (py_get marine_data "daily" (JObj [])); [| discriminate H].
  injection H as <-.
  table_cases Hin; simpl; eauto.
Qed.

(** C5: each of the five hourly series of a returned document is the
    first 24 entries of the upstream list, in the upstream order from
    index 0; 30 entries give exactly 24, and a list of fewer than 24
    entries is kept as it is. *)
Theorem hourly_series_first_24 (w : World) (lat lon marine_data wind_data doc : json)
    (t : list event) :
  fetched w marine_url (mcp_marine_params lat lon) = Ok marine_data ->
  fetched w forecast_url (mcp_wind_params lat lon) = Ok wind_data ->
  run (get_weather_forecast lat lon) w = (Ok (document_content doc), t) ->
  forall s key out hourly (items : list json),
    In (s, key, out) hourly_table ->
    field (body_of s marine_data wind_data) "hourly" = Some hourly ->
    field hourly key = Some (JArr items) ->
    path doc ["hourly_forecast"; out] = Some (JArr (firstn 24 items))
    /\ length (firstn 24 items) = Nat.min 24 (length items)
    /\ (length items = 30 -> length (firstn 24 items) = 24)
    /\ (length items < 24 -> firstn 24 items = items)
    /\ (forall i, i < length (firstn 24 items) ->
                  firstn 24 items !! i = items !! i).
Proof.
  intros Hm Hw Hrun s key out hourly items Hin Hhourly Hkey.
  rewrite get_weather_forecast_run, weather_document_run, Hm, Hw in Hrun.
  destruct (format_forecast _ _ _ _ _) as [d | e] eqn:Hdoc; [| discriminate Hrun].
  injection Hrun as -> _.
  destruct (format_forecast_hourly _ _ _ _ _ _ Hdoc s key out Hin) as (v & Hv & Hpath).
  rewrite (hourly_series_of_list _ _ _ _ Hhourly Hkey) in Hv. injection Hv as <-.
  split; [exact Hpath |].
  split; [apply length_firstn |].
  split; [intros H30; rewrite length_firstn, H30; reflexivity |].
  split; [intros Hlt; apply firstn_all2; lia |].
  intros i Hi. apply lookup_take_lt.
  rewrite length_firstn in Hi. lia.
Qed.

Lemma hourly_series_first_24_witness :
  exists doc,
    run (get_weather_forecast bells_lat bells_lon) world_up
    = (Ok (document_content doc),
       [marine_request bells_lat bells_lon; wind_request bells_lat bells_lon])
    /\ path doc ["hourly_forecast"; "times"] = Some (JArr (firstn 24 (hours 30)))
    /\ length (firstn 24 (hours 30)) = 24
    /\ path doc ["hourly_forecast"; "wave_heights"]
       = Some (JArr [JNum "1.4"; JNull; JNum "1.6"]).
Proof.
  eexists. split; [reflexivity |].
  pose proof (hourly_series_first_24 world_up bells_lat bells_lon marine_body wind_body
                _ _ eq_refl eq_refl eq_refl) as Hseries.
  split.
  { refine (proj1 (Hseries Marine "time" "times" _ (hours 30) _ eq_refl eq_refl)).
    simpl. tauto. }
  split.
  { refine (proj1 (proj2 (proj2 (Hseries Marine "time" "times" _ (hours 30) _
                                   eq_refl eq_refl))) eq_refl).
    simpl. tauto. }
  refine (proj1 (Hseries Marine "wave_height" "wave_heights" _
                   [JNum "1.4"; JNull; JNum "1.6"] _ eq_refl eq_refl)).
  simpl. tauto.
Defined.

(** C8 (as amended): a missing field is not an error.  For two bodies that
    are well shaped (dicts whose [current] and [hourly], where present,
    are dicts, and whose hourly series, where present, are lists) the
    call returns the document; every key of [current_conditions] exists
    and carries the upstream value, null included, or null when [current]
    or the key is missing; an hourly series whose [hourly] or key is
    missing is the empty list; [daily_summary] is the upstream [daily] or
    the empty dict. *)
Theorem missing_fields_become_null (w : World) (lat lon marine_data wind_data : json) :
  fetched w marine_url (mcp_marine_params lat lon) = Ok marine_data ->
  fetched w forecast_url (mcp_wind_params lat lon) = Ok wind_data ->
  well_shaped mcp_marine_series marine_data = true ->
  well_shaped wind_series wind_data = true ->
  exists doc,
    run (get_weather_forecast lat lon) w
    = (Ok (document_content doc), [marine_request lat lon; wind_request lat lon])
    /\ (forall s key out,
          In (s, key, out) current_table ->
          let body := body_of s marine_data wind_data in
          (field body "current" = None ->
           path doc ["current_conditions"; out] = Some JNull)
          /\ (forall cur, field body "current" = Some cur ->
                          field cur key = None ->
                          path doc ["current_conditions"; out] = Some JNull)
          /\ (forall cur v, field body "current" = Some cur ->
                            field cur key = Some v ->
                            path doc ["current_conditions"; out] = Some v))
    /\ (forall s key out,
          In (s, key, out) hourly_table ->
          let body := body_of s marine_data wind_data in
          (field body "hourly" = None ->
           path doc ["hourly_forecast"; out] = Some (JArr []))
          /\ (forall hourly, field body "hourly" = Some hourly ->
                             field hourly key = None ->
                             path doc ["hourly_forecast"; out] = Some (JArr [])))
    /\ path doc ["daily_summary"] = Some (default (JObj []) (field marine_data "daily")).
Proof.
  intros Hm Hw Sm Sw.
  exists (normalized lat lon (now_isoformat w) marine_data wind_data).
  split; [apply get_weather_forecast_ok; assumption |].
  split; [| split; [| reflexivity]].
  - intros s key out Hin body. subst body.
    repeat split; intros;
      table_cases Hin; simpl in *; unfold reading;
      repeat match goal with H : field _ _ = _ |- _ => rewrite H end;
      reflexivity.
  - intros s key out Hin body. subst body.
    repeat split; intros;
      table_cases Hin; simpl in *; unfold first_day;
      repeat match goal with H : field _ _ = _ |- _ => rewrite H end;
      reflexivity.
Qed.

Lemma missing_fields_become_null_witness :
  exists doc,
    run (get_weather_forecast bells_lat bells_lon) world_sparse
    = (Ok (document_content doc),
       [marine_request bells_lat bells_lon; wind_request bells_lat bells_lon])
    /\ path doc ["current_conditions"; "wave_height_m"] = Some JNull
    /\ path doc ["current_conditions"; "wind_direction"] = Some JNull
    /\ path doc ["current_conditions"; "wind_speed_kmh"] = Some JNull
    /\ path doc ["hourly_forecast"; "times"] = Some (JArr []).
Proof.
  destruct (missing_fields_become_null world_sparse bells_lat bells_lon
              (JObj []) sparse_wind_body eq_refl eq_refl eq_refl eq_refl)
    as (doc & Hrun & Hcur & Hhourly & _).
  exists doc. split; [exact Hrun |].
  split.
  { refine (proj1 (Hcur Marine "wave_height" "wave_height_m" _) eq_refl).
    simpl. tauto. }
  split.
  { refine (proj1 (proj2 (Hcur Wind "wind_direction_10m" "wind_direction" _))
              _ eq_refl eq_refl).
    simpl. tauto. }
  split.
  { refine (proj2 (proj2 (Hcur Wind "wind_speed_10m" "wind_speed_kmh" _))
              _ JNull eq_refl eq_refl).
    simpl. tauto. }
  refine (proj1 (Hhourly Marine "time" "times" _) eq_refl).
  simpl. tauto.
Defined.

(** C8 (as stated) fails: a marine body that lacks [daily] and has [null]
    for [current] is not passed on with nulls; the call answers with the
    error text. *)
Lemma null_current_is_an_error :
  fetched world_null_current marine_url (mcp_marine_params bells_lat bells_lon)
  = Ok null_current_body
  /\ field null_current_body "daily" = None
  /\ field null_current_body "current" = Some JNull
  /\ run (get_weather_forecast bells_lat bells_lon) world_null_current
     = (Ok (error_content fetch_error (AttributeError "NoneType" "get")),
        [marine_request bells_lat bells_lon; wind_request bells_lat bells_lon])
  /\ str_exn (AttributeError "NoneType" "get")
     = "'NoneType' object has no attribute 'get'".
Proof. repeat split. Qed.

(** ** The dispatcher *)

(** C6: a name that is not in the catalog gets the one text
    "Unknown tool: <name>", which ends with the name as given; the call
    returns normally and issues no request. *)
Theorem unknown_tool_is_reported (w : World) (tool_name : string)
    (arguments : gmap string json) :
  ~ In tool_name (map name list_tools) ->
  run (call_tool tool_name arguments) w
  = (Ok [mkTextContent "text" (Plain ("Unknown tool: " +:+ tool_name))], []).
Proof.
  intros Hnot. unfold call_tool.
  destruct (String.eqb_spec tool_name "get_weather_forecast") as [-> | _];
    [exfalso; apply Hnot; simpl; tauto |].
  destruct (String.eqb_spec tool_name "search_surf_spot_info") as [-> | _];
    [exfalso; apply Hnot; simpl; tauto |].
  destruct (String.eqb_spec tool_name "get_spot_coordinates") as [-> | _];
    [exfalso; apply Hnot; simpl; tauto |].
  reflexivity.
Qed.

Lemma unknown_tool_is_reported_witness :
  run (call_tool "not_a_real_tool" only_longitude) world_up
  = (Ok [mkTextContent "text" (Plain "Unknown tool: not_a_real_tool")], []).
Proof.
  apply (unknown_tool_is_reported world_up "not_a_real_tool" only_longitude).
  simpl. intros [H | [H | [H | []]]]; discriminate H.
Defined.

(** The coroutine [call_tool] on its own, without the handler in front
    of it, does not validate: for a registered tool and arguments that
    lack one of its required arguments, looking the arguments up raises
    [KeyError] for the first required argument that is missing. *)
Theorem missing_required_argument_raises (w : World) (tool : Tool)
    (arguments : gmap string json) :
  In tool list_tools ->
  (exists k, In k (required (inputSchema tool)) /\ arguments !! k = None) ->
  exists k before after,
    required (inputSchema tool) = (before ++ k :: after)%list
    /\ (forall k', In k' before -> arguments !! k' <> None)
    /\ arguments !! k = None
    /\ run (call_tool (name tool) arguments) w = (Raised (KeyError k), []).
Proof.
  intros Htool (k & Hk & Hnone). simpl in Htool.
  destruct Htool as [<- | [<- | [<- | []]]]; simpl in Hk |- *.
  - destruct (arguments !! "latitude") as [v |] eqn:Hlat.
    + destruct Hk as [<- | [<- | []]]; [congruence |].
      exists "longitude", ["latitude"], []. split; [reflexivity |].
      split; [intros k' [<- | []]; congruence |]. split; [exact Hnone |].
      unfold call_tool, argument. simpl. unfold_io. rewrite Hlat, Hnone. reflexivity.
    + exists "latitude", [], ["longitude"]. split; [reflexivity |].
      split; [intros k' [] |]. split; [exact Hlat |].
      unfold call_tool, argument. simpl. unfold_io. rewrite Hlat. reflexivity.
  - destruct Hk as [<- | []].
    exists "spot_name", [], []. split; [reflexivity |].
    split; [intros k' [] |]. split; [exact Hnone |].
    unfold call_tool, argument. simpl. unfold_io. rewrite Hnone. reflexivity.
  - destruct Hk as [<- | []].
    exists "spot_name", [], []. split; [reflexivity |].
    split; [intros k' [] |]. split; [exact Hnone |].
    unfold call_tool, argument. simpl. unfold_io. rewrite Hnone. reflexivity.
Qed.

Lemma missing_required_argument_raises_witness :
  exists k before after,
    ["latitude"; "longitude"] = (before ++ k :: after)%list
    /\ (forall k', In k' before -> only_longitude !! k' <> None)
    /\ only_longitude !! k = None
    /\ run (call_tool "get_weather_forecast" only_longitude) world_up
       = (Raised (KeyError k), []).
Proof.
  apply (missing_required_argument_raises world_up
           (mkTool "get_weather_forecast"
              "Get marine weather forecast including swell, wind, and tide data for coordinates"
              (mkInputSchema "object"
                 [ ("latitude", mkProperty "number" "Latitude of the surf spot");
                   ("longitude", mkProperty "number" "Longitude of the surf spot") ]
                 ["latitude"; "longitude"]))
           only_longitude).
  - simpl. left. reflexivity.
  - exists "latitude". split; [simpl; tauto | vm_compute; reflexivity].
Defined.

(** The coroutine called directly for [get_weather_forecast] without
    [latitude] raises [KeyError('latitude')]. *)
Lemma missing_latitude_raises :
  run (call_tool "get_weather_forecast" only_longitude) world_up
  = (Raised (KeyError "latitude"), [])
  /\ ~ (exists content t,
          run (call_tool "get_weather_forecast" only_longitude) world_up
          = (Ok content, t)).
Proof.
  split; [vm_compute; reflexivity |].
  intros (content & t & H). vm_compute in H. discriminate H.
Qed.

(** ** The report pipeline *)

Lemma analyze_surf_conditions_run (w : World) (spot_name : string)
    (weather_data : WeatherData) :
  run (analyze_surf_conditions spot_name weather_data) w =
  match build_prompt spot_name weather_data with
  | Raised e => (Raised e, [])
  | Ok prompt =>
      (Ok (match messages_create w prompt with
           | Ok narrative => narrative
           | Raised e => report_error +:+ str_exn e
           end),
       [EvGenerate prompt])
  end.
Proof.
  unfold analyze_surf_conditions, create_message, report_error. unfold_io.
  destruct (build_prompt spot_name weather_data) as [prompt | e]; [| reflexivity].
  destruct (messages_create w prompt); reflexivity.
Qed.

Lemma generate_surf_report_run (w : World) (spot_name : string)
    (custom_lat custom_lon : option float) :
  run (generate_surf_report spot_name custom_lat custom_lon) w =
  match determine_coordinates spot_name custom_lat custom_lon with
  | None => (Ok (spot_not_found, EmptyString), [])
  | Some c =>
      match run (get_marine_weather (lat c) (lon c)) w with
      | (Raised e, t) => (Ok (pipeline_error +:+ str_exn e, EmptyString), t)
      | (Ok weather_data, t) =>
          match run (analyze_surf_conditions spot_name weather_data) w with
          | (Raised e, t') =>
              (Ok (pipeline_error +:+ str_exn e, EmptyString), (t ++ t')%list)
          | (Ok surf_report, t') =>
              (match render_summary weather_data with
               | Ok weather_summary => Ok (surf_report, weather_summary)
               | Raised e => Ok (pipeline_error +:+ str_exn e, EmptyString)
               end, (t ++ t')%list)
          end
      end
  end.
Proof.
  unfold generate_surf_report, pipeline_error.
  destruct (determine_coordinates spot_name custom_lat custom_lon) as [c |];
    [| reflexivity].
  unfold_io.
  destruct (get_marine_weather (lat c) (lon c) w) as [[weather_data | e] t];
    [| rewrite app_nil_r; reflexivity].
  destruct (analyze_surf_conditions spot_name weather_data w) as [[surf_report | e] t'];
    [| rewrite !app_nil_r; reflexivity].
  destruct (render_summary weather_data); rewrite !app_nil_r; reflexivity.
Qed.

Lemma current_or_na_inv (body : json) (key : string) (v : json) :
  current_or_na body key = Ok v ->
  exists fields,
    body = JObj fields
    /\ absent_or is_dict (dict_lookup "current" fields) = true.
Proof.
  unfold current_or_na. intros H.
  destruct body; try discriminate H. exists fields. split; [reflexivity |].
  simpl in H. destruct (dict_lookup "current" fields) as [cur |]; [| reflexivity].
  destruct cur; try discriminate H. reflexivity.
Qed.

(** Where the prompt can be built, the summary can be rendered. *)
Lemma render_summary_after_prompt (spot_name : string) (weather_data : WeatherData)
    (prompt : string) :
  build_prompt spot_name weather_data = Ok prompt ->
  render_summary weather_data = Ok (summary_of weather_data).
Proof.
  unfold build_prompt. intros H.
  destruct (current_or_na (marine weather_data) "wave_height") as [v1 |] eqn:Hm;
    [| discriminate H].
  destruct (current_or_na (marine weather_data) "wave_period") as [v2 |];
    [| discriminate H].
  destruct (current_or_na (wind weather_data) "wind_speed_10m") as [v3 |] eqn:Hw;
    [| discriminate H].
  clear H.
  apply current_or_na_inv in Hm as (mf & Em & Hmc).
  apply current_or_na_inv in Hw as (wf & Ew & Hwc).
  unfold render_summary, summary_of, reading. rewrite Em, Ew. simpl.
  destruct (dict_lookup "current" mf) as [mc |]; simpl;
    [destruct mc; try discriminate Hmc |];
    (destruct (dict_lookup "current" wf) as [wc |]; simpl;
     [destruct wc; try discriminate Hwc |]);
    reflexivity.
Qed.

Lemma summary_not_empty (weather_data : WeatherData) :
  summary_of weather_data <> EmptyString.
Proof. unfold summary_of, weather_summary_text. simpl. discriminate. Qed.

(** C7: for a spot name that is not in [SURF_SPOTS] and no coordinates,
    the pipeline returns the spot-not-found narrative, which is not
    empty, and the empty summary; nothing is raised and no request is
    issued. *)
Theorem unknown_spot_is_reported (w : World) (spot_name : string) :
  SURF_SPOTS !! spot_name = None ->
  run (generate_surf_report spot_name None None) w
  = (Ok (spot_not_found, EmptyString), [])
  /\ run (sync_generate_report spot_name None None) w
     = (Ok (spot_not_found, EmptyString), [])
  /\ spot_not_found <> EmptyString.
Proof.
  intros Hspot.
  assert (Hrun : run (generate_surf_report spot_name None None) w
                 = (Ok (spot_not_found, EmptyString), [])).
  { rewrite generate_surf_report_run. simpl. rewrite Hspot. reflexivity. }
  split; [exact Hrun |]. split; [| discriminate].
  unfold sync_generate_report, float_or_none. unfold run in *. unfold_io.
  rewrite Hrun. reflexivity.
Qed.

Lemma unknown_spot_is_reported_witness :
  run (generate_surf_report "Kilcunda" None None) world_up
  = (Ok (spot_not_found, EmptyString), []).
Proof.
  apply (unknown_spot_is_reported world_up "Kilcunda"). vm_compute. reflexivity.
Defined.

(** C9: when the coordinates were determined, both bodies were fetched
    and the report client, called with the prompt built from them,
    raises, the pipeline returns the text "Error generating surf
    report: ..." as the narrative together with the summary of the
    current conditions: the heading and one labelled line for each of the
    wave height, wave period, wave direction, wind speed and wind
    direction of the two bodies, with N/A for a reading that is
    missing. *)
Theorem report_failure_keeps_summary (w : World) (spot_name : string)
    (custom_lat custom_lon : option float) (c : Coords)
    (weather_data : WeatherData) (t : list event) (prompt : string) (e : exn) :
  determine_coordinates spot_name custom_lat custom_lon = Some c ->
  run (get_marine_weather (lat c) (lon c)) w = (Ok weather_data, t) ->
  build_prompt spot_name weather_data = Ok prompt ->
  messages_create w prompt = Raised e ->
  let shown body key := py_str (reading (JStr "N/A") body key) in
  run (generate_surf_report spot_name custom_lat custom_lon) w
  = (Ok ("Error generating surf report: " +:+ str_exn e,
         "📊 Raw Weather Data:

🌊 Wave Height: " +:+ shown (marine weather_data) "wave_height" +:+ "m
📏 Wave Period: " +:+ shown (marine weather_data) "wave_period" +:+ "s
🧭 Wave Direction: " +:+ shown (marine weather_data) "wave_direction" +:+ "°
💨 Wind Speed: " +:+ shown (wind weather_data) "wind_speed_10m" +:+ " km/h
🧭 Wind Direction: " +:+ shown (wind weather_data) "wind_direction_10m" +:+ "°
"),
     (t ++ [EvGenerate prompt])%list).
Proof.
  intros Hc Hfetch Hprompt Hfail shown.
  rewrite generate_surf_report_run, Hc, Hfetch, analyze_surf_conditions_run.
  rewrite Hprompt, Hfail, (render_summary_after_prompt _ _ _ Hprompt).
  reflexivity.
Qed.

Lemma report_failure_keeps_summary_witness :
  exists prompt,
    run (generate_surf_report bells None None) world_up
    = (Ok ("Error generating surf report: 'Client' object has no attribute 'messages'",
           "📊 Raw Weather Data:

🌊 Wave Height: 1.4m
📏 Wave Period: Nones
🧭 Wave Direction: 215°
💨 Wind Speed: 12.5 km/h
🧭 Wind Direction: 270°
"),
       [ gradio_marine_request (lat bells_coords) (lon bells_coords);
         gradio_wind_request (lat bells_coords) (lon bells_coords);
         EvGenerate prompt ]).
Proof.
  eexists.
  refine (report_failure_keeps_summary world_up bells None None bells_coords
            (mkWeatherData marine_body wind_body)
            [ gradio_marine_request (lat bells_coords) (lon bells_coords);
              gradio_wind_request (lat bells_coords) (lon bells_coords) ]
            _ client_has_no_messages _ _ _ _).
  - vm_compute. reflexivity.
  - vm_compute. reflexivity.
  - vm_compute. reflexivity.
  - reflexivity.
Defined.

(** ** Presence of the custom coordinates *)

Lemma determine_coordinates_falsy (spot_name : string)
    (custom_lat custom_lon : option float) :
  optional_truthy custom_lat && optional_truthy custom_lon = false ->
  determine_coordinates spot_name custom_lat custom_lon = SURF_SPOTS !! spot_name.
Proof.
  unfold determine_coordinates, optional_truthy.
  destruct custom_lat as [la |], custom_lon as [lo |]; try reflexivity.
  intros ->. reflexivity.
Qed.

Lemma generate_surf_report_falsy (spot_name : string)
    (custom_lat custom_lon : option float) :
  optional_truthy custom_lat && optional_truthy custom_lon = false ->
  generate_surf_report spot_name custom_lat custom_lon
  = generate_surf_report spot_name None None.
Proof.
  intros H. unfold generate_surf_report.
  rewrite (determine_coordinates_falsy _ _ _ H). reflexivity.
Qed.

(** C10: a custom latitude or longitude that equals 0 counts as absent.
    If either of the two is 0 (or missing) the custom pair is not used:
    the coordinates are those of the spot table, or the spot is not
    found, exactly as when no custom coordinates are given.  At the
    synchronous wrapper an empty string is the same as no string. *)
Theorem zero_coordinate_is_absent (spot_name : string) (x : float)
    (other : option float) :
  PrimFloat.eqb x 0 = true ->
  determine_coordinates spot_name (Some x) other = SURF_SPOTS !! spot_name
  /\ determine_coordinates spot_name other (Some x) = SURF_SPOTS !! spot_name
  /\ generate_surf_report spot_name (Some x) other
     = generate_surf_report spot_name None None
  /\ generate_surf_report spot_name other (Some x)
     = generate_surf_report spot_name None None
  /\ (forall w text,
        run (sync_generate_report spot_name (Some EmptyString) text) w
        = run (sync_generate_report spot_name None text) w
        /\ run (sync_generate_report spot_name text (Some EmptyString)) w
           = run (sync_generate_report spot_name text None) w)
  /\ (forall w,
        run (sync_generate_report spot_name (Some EmptyString) (Some EmptyString)) w
        = run (generate_surf_report spot_name None None) w).
Proof.
  intros Hzero.
  assert (Hl : optional_truthy (Some x) && optional_truthy other = false).
  { simpl. unfold float_truthy. rewrite Hzero. reflexivity. }
  assert (Hr : optional_truthy other && optional_truthy (Some x) = false).
  { simpl. unfold float_truthy. rewrite Hzero. apply andb_false_r. }
  split; [apply determine_coordinates_falsy, Hl |].
  split; [apply determine_coordinates_falsy, Hr |].
  split; [apply generate_surf_report_falsy, Hl |].
  split; [apply generate_surf_report_falsy, Hr |].
  split.
  - intros w text. split; reflexivity.
  - intros w. unfold sync_generate_report, float_or_none. simpl. unfold_io.
    destruct (generate_surf_report spot_name None None w). reflexivity.
Qed.

Lemma zero_coordinate_is_absent_witness :
  determine_coordinates bells (Some 0%float) (Some 10%float) = Some bells_coords
  /\ determine_coordinates bells (Some 10%float) (Some (-0)%float) = Some bells_coords
  /\ generate_surf_report "Kilcunda" (Some 0%float) (Some 10%float)
     = generate_surf_report "Kilcunda" None None.
Proof.
  split.
  { rewrite (proj1 (zero_coordinate_is_absent bells 0 (Some 10%float) eq_refl)).
    vm_compute. reflexivity. }
  split.
  { rewrite (proj1 (proj2 (zero_coordinate_is_absent bells (-0) (Some 10%float)
                             eq_refl))).
    vm_compute. reflexivity. }
  exact (proj1 (proj2 (proj2 (zero_coordinate_is_absent "Kilcunda" 0 (Some 10%float)
                                eq_refl)))).
Defined.

(** Where both custom coordinates are present and not 0, they are used,
    whatever the spot name. *)
Lemma custom_coordinates_take_precedence (spot_name : string) (la lo : float) :
  float_truthy la = true ->
  float_truthy lo = true ->
  determine_coordinates spot_name (Some la) (Some lo) = Some (mkCoords la lo).
Proof. intros Hla Hlo. unfold determine_coordinates. rewrite Hla, Hlo. reflexivity. Qed.

(** C4 at latitude 0: with the explicit coordinates (0.0, 10.0) and the
    spot "Bells Beach, Australia" the pipeline does not use the
    coordinates given; it asks both services for the coordinates of Bells
    Beach, from the function itself and from the wrapper with the strings
    "0" and "10"; with a spot name that is not in the table it reports
    that the spot was not found. *)
Theorem zero_latitude_is_ignored :
  determine_coordinates bells (Some 0%float) (Some 10%float) = Some bells_coords
  /\ (exists prompt,
        snd (run (generate_surf_report bells (Some 0%float) (Some 10%float)) world_up)
        = [ gradio_marine_request (lat bells_coords) (lon bells_coords);
            gradio_wind_request (lat bells_coords) (lon bells_coords);
            EvGenerate prompt ])
  /\ run (sync_generate_report bells (Some "0") (Some "10")) world_up
     = run (generate_surf_report bells None None) world_up
  /\ run (generate_surf_report "Kilcunda" (Some 0%float) (Some 10%float)) world_up
     = (Ok (spot_not_found, EmptyString), []).
Proof.
  split; [vm_compute; reflexivity |].
  split; [eexists; vm_compute; reflexivity |].
  split; vm_compute; reflexivity.
Qed.

(** ** The geocoding handler *)

Lemma get_spot_coordinates_run (w : World) (spot_name location : json) :
  let query := geocoding_query spot_name location in
  run (get_spot_coordinates spot_name location) w =
  (Ok (match fetched w geocoding_url (geocoding_params query) with
       | Raised e => error_content coordinates_error e
       | Ok data =>
           match geocoding_reply query data with
           | Ok content => content
           | Raised e => error_content coordinates_error e
           end
       end),
   [geocoding_request query]).
Proof.
  unfold get_spot_coordinates, geocoding_query, geocoding_request, geocoding_params,
    geocoding_reply, error_content, coordinates_error, document_content.
  unfold_io.
  destruct (http_get w geocoding_url _) as [r | e]; [| reflexivity].
  destruct (is_success r); [| reflexivity].
  destruct (json_body r) as [data | e]; [| reflexivity].
  simpl. destruct (py_get data "results" JNull) as [found | e]; [| reflexivity].
  simpl. destruct (py_truthy found); [| reflexivity].
  destruct (py_item data "results") as [all | e]; [| reflexivity].
  destruct (py_slice 3 all) as [first3 | e]; [| reflexivity].
  destruct (py_iter first3) as [items | e]; [| reflexivity].
  destruct (mapM candidate items) as [results | e]; reflexivity.
Qed.

Lemma candidate_of_dict (entry : json) :
  is_dict entry = true -> candidate entry = Ok (candidate_of entry).
Proof.
  destruct entry; try discriminate. intros _. unfold candidate, candidate_of. simpl.
  repeat match goal with
         | |- context [dict_lookup ?k fields] => destruct (dict_lookup k fields)
         end; reflexivity.
Qed.

Lemma mapM_candidate (items : list json) :
  forallb is_dict items = true ->
  mapM candidate items = Ok (map candidate_of items).
Proof.
  induction items as [| entry rest IH]; [reflexivity |].
  simpl. intros H. apply andb_prop in H as [Hentry Hrest].
  rewrite (candidate_of_dict entry Hentry). simpl. rewrite (IH Hrest). reflexivity.
Qed.

(** X1: [get_spot_coordinates] never raises.  Whatever the arguments and
    whatever the geocoder does, it returns exactly one text content after
    exactly one request, which asks the geocoding service for
    "<spot_name> <location>" with count 5; when the request, the status
    check or the decoding fails, the text is "Error getting
    coordinates: " followed by the error. *)
Theorem get_spot_coordinates_always_answers (w : World) (spot_name location : json) :
  let query := geocoding_query spot_name location in
  (exists item,
     run (get_spot_coordinates spot_name location) w
     = (Ok [item], [EvGet geocoding_url
                      [ ("name", pstr query); ("count", VJson (JNum "5"));
                        ("language", pstr "en"); ("format", pstr "json") ]]))
  /\ (forall e,
        fetched w geocoding_url (geocoding_params query) = Raised e ->
        fst (run (get_spot_coordinates spot_name location) w)
        = Ok [mkTextContent "text" (Plain (coordinates_error +:+ str_exn e))]).
Proof.
  intros query. rewrite get_spot_coordinates_run. fold query. split.
  - destruct (fetched w geocoding_url (geocoding_params query)) as [data | e];
      [| eexists; reflexivity].
    unfold geocoding_reply.
    destruct (py_get data "results" JNull) as [found | e]; [| eexists; reflexivity].
    simpl. destruct (py_truthy found); [| eexists; reflexivity].
    destruct (py_item data "results") as [all | e]; [| eexists; reflexivity].
    simpl. destruct (py_slice 3 all) as [first3 | e]; [| eexists; reflexivity].
    simpl. destruct (py_iter first3) as [items | e]; [| eexists; reflexivity].
    simpl. destruct (mapM candidate items) as [results | e]; eexists; reflexivity.
  - intros e He. rewrite He. reflexivity.
Qed.

Lemma get_spot_coordinates_always_answers_witness :
  fst (run (get_spot_coordinates torquay victoria) world_offline)
  = Ok [mkTextContent "text"
          (Plain (coordinates_error +:+ str_exn connection_failed))].
Proof.
  apply (proj2 (get_spot_coordinates_always_answers world_offline torquay victoria)
           connection_failed).
  reflexivity.
Defined.

Lemma geocoding_reply_list (query : string) (fields : list (string * json))
    (items : list json) :
  dict_lookup "results" fields = Some (JArr items) ->
  items <> [] ->
  geocoding_reply query (JObj fields)
  = match mapM candidate (firstn 3 items) with
    | Ok results =>
        Ok (document_content (JObj [("query", JStr query); ("results", JArr results)]))
    | Raised e => Raised e
    end.
Proof.
  intros Hresults Hitems. unfold geocoding_reply. simpl. rewrite Hresults. simpl.
  destruct items as [| entry rest]; [congruence |]. simpl.
  destruct (candidate entry); [| reflexivity]. simpl.
  destruct (mapM candidate (firstn 2 rest)); reflexivity.
Qed.

Lemma mapM_candidate_fails (items : list json) :
  forallb is_dict items = false ->
  exists e, mapM candidate items = Raised e.
Proof.
  induction items as [| entry rest IH]; [discriminate |].
  simpl. intros H.
  destruct (is_dict entry) eqn:Hentry.
  - rewrite (candidate_of_dict entry Hentry). simpl.
    destruct (IH H) as [e He]. rewrite He. eauto.
  - destruct entry; try discriminate Hentry; simpl; eauto.
Qed.

(** X2: when the geocoder's [results] is a non-empty list whose first
    three entries are dicts, the reply is the JSON document with the
    query and at most three candidates: the first three entries in the
    geocoder's order, each reduced to the keys name, latitude, longitude,
    country and admin1, with null for a key the entry lacks. *)
Theorem get_spot_coordinates_first_three (w : World) (spot_name location : json)
    (fields : list (string * json)) (items : list json) :
  let query := geocoding_query spot_name location in
  fetched w geocoding_url (geocoding_params query) = Ok (JObj fields) ->
  dict_lookup "results" fields = Some (JArr items) ->
  items <> [] ->
  forallb is_dict (firstn 3 items) = true ->
  exists results,
    fst (run (get_spot_coordinates spot_name location) w)
    = Ok [mkTextContent "text"
            (JsonDumps (JObj [("query", JStr query); ("results", JArr results)]) 2)]
    /\ length results = Nat.min 3 (length items)
    /\ (forall i entry,
          i < 3 -> items !! i = Some entry ->
          results !! i = Some (candidate_of entry))
    /\ (forall candidate_entry,
          In candidate_entry results ->
          exists n la lo co ad,
            candidate_entry
            = JObj [ ("name", n); ("latitude", la); ("longitude", lo);
                     ("country", co); ("admin1", ad) ]).
Proof.
  intros query Hfetch Hresults Hitems Hdicts.
  exists (map candidate_of (firstn 3 items)).
  split.
  - rewrite get_spot_coordinates_run. fold query. rewrite Hfetch.
    rewrite (geocoding_reply_list _ _ _ Hresults Hitems).
    rewrite (mapM_candidate _ Hdicts). reflexivity.
  - split; [rewrite length_map; apply length_firstn |].
    split.
    + intros i entry Hi Hentry.
      rewrite list_lookup_fmap, lookup_take_lt by exact Hi.
      rewrite Hentry. reflexivity.
    + intros candidate_entry Hin. apply in_map_iff in Hin as (entry & <- & _).
      unfold candidate_of. repeat eexists.
Qed.

Lemma get_spot_coordinates_first_three_witness :
  exists results,
    fst (run (get_spot_coordinates torquay victoria) world_geocoder)
    = Ok [mkTextContent "text"
            (JsonDumps (JObj [("query", JStr "Torquay Victoria");
                              ("results", JArr results)]) 2)]
    /\ length results = 3
    /\ results !! 0
       = Some (JObj [ ("name", JStr "Bells Beach"); ("latitude", JNum "-38.37");
                      ("longitude", JNum "144.28"); ("country", JStr "Australia");
                      ("admin1", JNull) ]).
Proof.
  destruct (get_spot_coordinates_first_three world_geocoder torquay victoria
              [("results", JArr four_places)] four_places
              eq_refl eq_refl ltac:(discriminate) eq_refl)
    as (results & Hrun & Hlen & Hnth & _).
  exists results. split; [exact Hrun |]. split; [exact Hlen |].
  apply (Hnth 0 (place "Bells Beach" "Australia")); [lia | reflexivity].
Defined.

(** X3: one entry among the first three that is not a dict fails the
    whole reply: no candidate is returned, only the error text. *)
Theorem get_spot_coordinates_malformed_entry (w : World) (spot_name location : json)
    (fields : list (string * json)) (items : list json) :
  let query := geocoding_query spot_name location in
  fetched w geocoding_url (geocoding_params query) = Ok (JObj fields) ->
  dict_lookup "results" fields = Some (JArr items) ->
  forallb is_dict (firstn 3 items) = false ->
  exists e,
    fst (run (get_spot_coordinates spot_name location) w)
    = Ok [mkTextContent "text" (Plain (coordinates_error +:+ str_exn e))].
Proof.
  intros query Hfetch Hresults Hdicts.
  assert (Hitems : items <> []) by (intros ->; discriminate Hdicts).
  destruct (mapM_candidate_fails _ Hdicts) as [e He]. exists e.
  rewrite get_spot_coordinates_run. fold query. rewrite Hfetch.
  rewrite (geocoding_reply_list _ _ _ Hresults Hitems), He. reflexivity.
Qed.

Lemma get_spot_coordinates_malformed_entry_witness :
  exists e,
    fst (run (get_spot_coordinates torquay victoria) world_odd_entry)
    = Ok [mkTextContent "text" (Plain (coordinates_error +:+ str_exn e))].
Proof.
  apply (get_spot_coordinates_malformed_entry world_odd_entry torquay victoria
           [("results", JArr [place "Bells Beach" "Australia"; JNull])]
           [place "Bells Beach" "Australia"; JNull]);
    reflexivity.
Defined.

(** X4: when the decoded body is a dict whose [results] is missing or
    falsy (null, an empty list, ...), the reply is the text "No
    coordinates found for <spot_name> <location>". *)
Theorem get_spot_coordinates_no_match (w : World) (spot_name location : json)
    (fields : list (string * json)) :
  let query := geocoding_query spot_name location in
  fetched w geocoding_url (geocoding_params query) = Ok (JObj fields) ->
  py_truthy (default JNull (dict_lookup "results" fields)) = false ->
  fst (run (get_spot_coordinates spot_name location) w)
  = Ok [mkTextContent "text" (Plain ("No coordinates found for " +:+ query))].
Proof.
  intros query Hfetch Hfalsy.
  rewrite get_spot_coordinates_run. fold query. rewrite Hfetch.
  unfold geocoding_reply. simpl.
  destruct (dict_lookup "results" fields) as [found |]; simpl in Hfalsy |- *;
    [rewrite Hfalsy |]; reflexivity.
Qed.

Lemma get_spot_coordinates_no_match_witness :
  fst (run (get_spot_coordinates torquay victoria) world_no_match)
  = Ok [mkTextContent "text" (Plain "No coordinates found for Torquay Victoria")].
Proof.
  apply (get_spot_coordinates_no_match world_no_match torquay victoria
           [("generationtime_ms", JNum "0.5")]);
    reflexivity.
Defined.

(** ** Runs of the dispatcher *)

Lemma run_with_argument {A} (w : World) (arguments : gmap string json) (k : string)
    (f : json -> io A) :
  run (v ← lift (argument arguments k); f v) w =
  match arguments !! k with
  | Some v => run (f v) w
  | None => (Raised (KeyError k), [])
  end.
Proof.
  unfold argument. unfold_io.
  destruct (arguments !! k) as [v |]; [| reflexivity].
  destruct (f v w). reflexivity.
Qed.

Lemma call_tool_run (w : World) (tool_name : string) (arguments : gmap string json) :
  run (call_tool tool_name arguments) w =
  if String.eqb tool_name "get_weather_forecast" then
    match arguments !! "latitude" with
    | None => (Raised (KeyError "latitude"), [])
    | Some latitude =>
        match arguments !! "longitude" with
        | None => (Raised (KeyError "longitude"), [])
        | Some longitude => run (get_weather_forecast latitude longitude) w
        end
    end
  else if String.eqb tool_name "search_surf_spot_info" then
    match arguments !! "spot_name" with
    | None => (Raised (KeyError "spot_name"), [])
    | Some spot_name =>
        run (search_surf_spot_info spot_name
               (argument_or arguments "location" no_location)) w
    end
  else if String.eqb tool_name "get_spot_coordinates" then
    match arguments !! "spot_name" with
    | None => (Raised (KeyError "spot_name"), [])
    | Some spot_name =>
        run (get_spot_coordinates spot_name
               (argument_or arguments "location" no_location)) w
    end
  else (Ok (unknown_tool_content tool_name), []).
Proof.
  unfold call_tool, no_location.
  destruct (String.eqb tool_name "get_weather_forecast").
  { rewrite run_with_argument.
    destruct (arguments !! "latitude"); [| reflexivity].
    apply run_with_argument. }
  destruct (String.eqb tool_name "search_surf_spot_info");
    [apply run_with_argument |].
  destruct (String.eqb tool_name "get_spot_coordinates");
    [apply run_with_argument |].
  reflexivity.
Qed.




(** X6: catalog and dispatcher agree.  For a call that returns, the
    response is the text "Unknown tool: <name>" exactly when no entry of
    [list_tools] has that name: every listed tool is dispatched to a
    handler, and nothing else is. *)
Theorem unknown_tool_iff_not_listed (w : World) (tool_name : string)
    (arguments : gmap string json) (content : list TextContent) (t : list event) :
  run (call_tool tool_name arguments) w = (Ok content, t) ->
  content = unknown_tool_content tool_name <-> ~ In tool_name (map name list_tools).
Proof.
  rewrite call_tool_run. unfold unknown_tool_content. intros Hrun.
  destruct (String.eqb_spec tool_name "get_weather_forecast") as [-> | N1].
  { split; [| intros H; exfalso; apply H; simpl; tauto].
    intros ->. exfalso.
    destruct (arguments !! "latitude") as [la |]; [| discriminate Hrun].
    destruct (arguments !! "longitude") as [lo |]; [| discriminate Hrun].
    rewrite get_weather_forecast_run in Hrun.
    destruct (run (weather_document la lo) w) as [[doc | e] t'];
      discriminate Hrun. }
  destruct (String.eqb_spec tool_name "search_surf_spot_info") as [-> | N2].
  { split; [| intros H; exfalso; apply H; simpl; tauto].
    intros ->. exfalso.
    destruct (arguments !! "spot_name") as [s |]; discriminate Hrun. }
  destruct (String.eqb_spec tool_name "get_spot_coordinates") as [-> | N3].
  { split; [| intros H; exfalso; apply H; simpl; tauto].
    intros ->. exfalso.
    destruct (arguments !! "spot_name") as [s |]; [| discriminate Hrun].
    rewrite get_spot_coordinates_run in Hrun.
    destruct (fetched w geocoding_url _) as [data | e]; [| discriminate Hrun].
    unfold geocoding_reply in Hrun.
    destruct (py_get data "results" JNull) as [found | e]; [| discriminate Hrun].
    simpl in Hrun. destruct (py_truthy found); [| discriminate Hrun].
    destruct (py_item data "results") as [all | e]; [| discriminate Hrun].
    simpl in Hrun. destruct (py_slice 3 all) as [first3 | e]; [| discriminate Hrun].
    simpl in Hrun. destruct (py_iter first3) as [items | e]; [| discriminate Hrun].
    simpl in Hrun. destruct (mapM candidate items); discriminate Hrun. }
  injection Hrun as <- _. split; [| reflexivity].
  intros _. simpl. intros [H | [H | [H | []]]]; congruence.
Qed.

Lemma unknown_tool_iff_not_listed_witness :
  unknown_tool_content "surf_cam" = unknown_tool_content "surf_cam"
  <-> ~ In "surf_cam" (map name list_tools).
Proof.
  apply (unknown_tool_iff_not_listed world_up "surf_cam" spot_only
           (unknown_tool_content "surf_cam") []).
  reflexivity.
Defined.

(** X7: [location] is optional and defaults to the empty string: for
    every tool name, a call without [location] runs exactly as the same
    call with [location] set to the empty string. *)
Theorem missing_location_is_empty_string (w : World) (tool_name : string)
    (arguments : gmap string json) :
  arguments !! "location" = None ->
  run (call_tool tool_name arguments) w
  = run (call_tool tool_name (<["location" := JStr EmptyString]> arguments)) w.
Proof.
  intros Hnone. rewrite !call_tool_run. unfold argument_or, no_location.
  rewrite lookup_insert_eq, Hnone.
  rewrite !lookup_insert_ne by discriminate.
  reflexivity.
Qed.

Lemma missing_location_is_empty_string_witness :
  run (call_tool "get_spot_coordinates" spot_only) world_geocoder
  = run (call_tool "get_spot_coordinates"
           (<["location" := JStr EmptyString]> spot_only)) world_geocoder.
Proof.
  apply (missing_location_is_empty_string world_geocoder "get_spot_coordinates"
           spot_only).
  vm_compute. reflexivity.
Defined.

(** The coroutine reads [latitude], [longitude], [spot_name] and
    [location] and nothing else. *)
Lemma call_tool_reads_four_arguments (w : World) (tool_name k : string) (v : json)
    (arguments : gmap string json) :
  ~ In k ["latitude"; "longitude"; "spot_name"; "location"] ->
  run (call_tool tool_name (<[k := v]> arguments)) w
  = run (call_tool tool_name arguments) w.
Proof.
  intros Hk. rewrite !call_tool_run. unfold argument_or.
  rewrite !lookup_insert_ne by (intros ->; apply Hk; simpl; tauto).
  reflexivity.
Qed.

Lemma validation_ignores_other_arguments (tool : Tool) (k : string) (v : json)
    (arguments : gmap string json) :
  In tool list_tools ->
  ~ In k ["latitude"; "longitude"; "spot_name"; "location"] ->
  validation_error (inputSchema tool) (<[k := v]> arguments)
  = validation_error (inputSchema tool) arguments.
Proof.
  intros Htool Hk. simpl in Htool.
  destruct Htool as [<- | [<- | [<- | []]]]; unfold validation_error; simpl;
    rewrite !lookup_insert_ne by (intros ->; apply Hk; simpl; tauto);
    reflexivity.
Qed.

(** X8: an argument that no tool declares is ignored.  For every tool
    name, adding or changing an argument other than [latitude],
    [longitude], [spot_name] and [location] changes neither the response
    nor the requests, both for the coroutine [call_tool] called directly
    and for the registered handler in front of it, whose validation
    accepts and refuses exactly the same calls with and without it. *)
Theorem other_arguments_are_ignored (w : World) (tool_name k : string) (v : json)
    (arguments : gmap string json) :
  ~ In k ["latitude"; "longitude"; "spot_name"; "location"] ->
  run (call_tool tool_name (<[k := v]> arguments)) w
  = run (call_tool tool_name arguments) w
  /\ run (call_tool_handler call_tool tool_name (Some (<[k := v]> arguments))) w
     = run (call_tool_handler call_tool tool_name (Some arguments)) w.
Proof.
  intros Hk.
  pose proof (call_tool_reads_four_arguments w tool_name k v arguments Hk) as Hrun.
  split; [exact Hrun |].
  unfold call_tool_handler. simpl.
  assert (Hvalid :
            match tool_definition tool_name with
            | Some tool => validation_error (inputSchema tool) (<[k := v]> arguments)
            | None => None
            end
            = match tool_definition tool_name with
              | Some tool => validation_error (inputSchema tool) arguments
              | None => None
              end).
  { destruct (tool_definition tool_name) as [tool |] eqn:Htool; [| reflexivity].
    apply validation_ignores_other_arguments; [| exact Hk].
    unfold tool_definition in Htool. apply find_some in Htool. tauto. }
  rewrite Hvalid.
  destruct (match tool_definition tool_name with
            | Some tool => validation_error (inputSchema tool) arguments
            | None => None
            end); [reflexivity |].
  unfold run in Hrun |- *. unfold_io. rewrite Hrun. reflexivity.
Qed.

Lemma other_arguments_are_ignored_witness :
  run (call_tool "get_spot_coordinates" (<["limit" := JNum "50"]> spot_only))
    world_geocoder
  = run (call_tool "get_spot_coordinates" spot_only) world_geocoder
  /\ run (call_tool_handler call_tool "get_spot_coordinates"
            (Some (<["limit" := JNum "50"]> spot_only))) world_geocoder
     = run (call_tool_handler call_tool "get_spot_coordinates" (Some spot_only))
         world_geocoder.
Proof.
  apply (other_arguments_are_ignored world_geocoder "get_spot_coordinates" "limit").
  simpl. intros [H | [H | [H | [H | []]]]]; discriminate H.
Defined.

(** X9: what a call may send.  Whatever the tool name, the arguments and
    the answers, [call_tool] issues no request at all, or the marine
    request alone, or the marine request followed by the wind request, or
    one geocoding request; the search tool and unknown names never issue
    a request, and the report client is never called. *)
Theorem call_tool_requests (w : World) (tool_name : string)
    (arguments : gmap string json) :
  let t := snd (run (call_tool tool_name arguments) w) in
  (t = []
   \/ (exists la lo, t = [marine_request la lo])
   \/ (exists la lo, t = [marine_request la lo; wind_request la lo])
   \/ (exists query, t = [geocoding_request query]))
  /\ (tool_name <> "get_weather_forecast" ->
      tool_name <> "get_spot_coordinates" -> t = []).
Proof.
  intros t. subst t. rewrite call_tool_run.
  destruct (String.eqb_spec tool_name "get_weather_forecast") as [-> | N1].
  { split; [| congruence].
    destruct (arguments !! "latitude") as [la |]; [| tauto].
    destruct (arguments !! "longitude") as [lo |]; [| tauto].
    rewrite get_weather_forecast_run, weather_document_run.
    destruct (fetched w marine_url _) as [m | e]; [| simpl; eauto 6].
    destruct (fetched w forecast_url _) as [wd | e]; [| simpl; eauto 7].
    destruct (format_forecast _ _ _ _ _); simpl; eauto 7. }
  destruct (String.eqb_spec tool_name "search_surf_spot_info") as [-> | N2].
  { destruct (arguments !! "spot_name"); simpl; tauto. }
  destruct (String.eqb_spec tool_name "get_spot_coordinates") as [-> | N3].
  { split; [| congruence].
    destruct (arguments !! "spot_name") as [s |]; [| tauto].
    rewrite get_spot_coordinates_run. simpl. eauto 7. }
  simpl. tauto.
Qed.

Lemma call_tool_requests_witness :
  snd (run (call_tool "search_surf_spot_info" spot_only) world_up) = [].
Proof.
  apply (proj2 (call_tool_requests world_up "search_surf_spot_info" spot_only));
    discriminate.
Defined.

(** ** When the aggregation gives a document *)

Lemma current_reading_inv (body : json) (key : string) (v : json) :
  current_reading body key = Ok v ->
  is_dict body = true /\ absent_or is_dict (field body "current") = true.
Proof.
  unfold current_reading. intros H.
  destruct body; try discriminate H. split; [reflexivity |].
  simpl in H |- *. destruct (dict_lookup "current" fields) as [cur |]; [| reflexivity].
  destruct cur; try discriminate H. reflexivity.
Qed.

Lemma hourly_series_inv (body : json) (key : string) (v : json) :
  hourly_series body key = Ok v ->
  forall hourly,
    field body "hourly" = Some hourly ->
    is_dict hourly = true /\ absent_or sliceable (field hourly key) = true.
Proof.
  unfold hourly_series. intros H hourly Hhourly.
  destruct body; try discriminate Hhourly. simpl in H, Hhourly. rewrite Hhourly in H.
  destruct hourly; try discriminate H. split; [reflexivity |].
  simpl in H |- *. destruct (dict_lookup key fields0) as [series |]; [| reflexivity].
  destruct series; try discriminate H; reflexivity.
Qed.

Lemma format_forecast_well_shaped (lat lon : json) (timestamp : string)
    (marine_data wind_data doc : json) :
  format_forecast lat lon timestamp marine_data wind_data = Ok doc ->
  well_shaped mcp_marine_series marine_data = true
  /\ well_shaped wind_series wind_data = true.
Proof.
  unfold format_forecast. intros H.
  destruct (current_reading marine_data "wave_height") eqn:Cm; [| discriminate H].
  destruct (current_reading marine_data "wave_direction"); [| discriminate H].
  destruct (current_reading marine_data "wave_period"); [| discriminate H].
  destruct (current_reading wind_data "wind_speed_10m") eqn:Cw; [| discriminate H].
  destruct (current_reading wind_data "wind_direction_10m"); [| discriminate H].
  destruct (hourly_series marine_data "time") eqn:E1; [| discriminate H].
  destruct (hourly_series marine_data "wave_height") eqn:E2; [| discriminate H].
  destruct (hourly_series marine_data "swell_wave_height") eqn:E3; [| discriminate H].
  destruct (hourly_series wind_data "wind_speed_10m") eqn:E4; [| discriminate H].
  destruct (hourly_series wind_data "wind_direction_10m") eqn:E5; [| discriminate H].
  clear H.
  apply current_reading_inv in Cm as [Dm Hm]. apply current_reading_inv in Cw as [Dw Hw].
  unfold well_shaped. rewrite Dm, Hm, Dw, Hw. simpl. split.
  - destruct (field marine_data "hourly") as [h |] eqn:Hh; [| reflexivity]. simpl.
    destruct (hourly_series_inv _ _ _ E1 h Hh) as [-> ->].
    destruct (hourly_series_inv _ _ _ E2 h Hh) as [_ ->].
    destruct (hourly_series_inv _ _ _ E3 h Hh) as [_ ->]. reflexivity.
  - destruct (field wind_data "hourly") as [h |] eqn:Hh; [| reflexivity]. simpl.
    destruct (hourly_series_inv _ _ _ E4 h Hh) as [-> ->].
    destruct (hourly_series_inv _ _ _ E5 h Hh) as [_ ->]. reflexivity.
Qed.

(** X10: once both services have delivered a body, the call returns a
    document exactly when both bodies are well shaped (see
    [well_shaped]); for any other pair of bodies it returns the text
    "Error fetching weather data: ..." although both requests
    succeeded. *)
Theorem document_iff_well_shaped (w : World) (lat lon marine_data wind_data : json) :
  fetched w marine_url (mcp_marine_params lat lon) = Ok marine_data ->
  fetched w forecast_url (mcp_wind_params lat lon) = Ok wind_data ->
  ((exists doc,
      fst (run (get_weather_forecast lat lon) w) = Ok (document_content doc))
   <-> well_shaped mcp_marine_series marine_data
       && well_shaped wind_series wind_data = true)
  /\ (well_shaped mcp_marine_series marine_data
      && well_shaped wind_series wind_data = false ->
      exists e,
        fst (run (get_weather_forecast lat lon) w)
        = Ok (error_content fetch_error e)).
Proof.
  intros Hm Hw.
  rewrite get_weather_forecast_run, weather_document_run, Hm, Hw.
  destruct (format_forecast lat lon (now_isoformat w) marine_data wind_data)
    as [doc | e] eqn:Hdoc.
  - apply format_forecast_well_shaped in Hdoc as [-> ->]. simpl.
    split; [split; eauto | discriminate].
  - destruct (well_shaped mcp_marine_series marine_data) eqn:Sm;
      destruct (well_shaped wind_series wind_data) eqn:Sw; simpl;
      try (split; [split; [intros [doc Hd]; discriminate Hd | discriminate]
                  | eauto]).
    rewrite (format_forecast_ok _ _ _ _ _ Sm Sw) in Hdoc. discriminate Hdoc.
Qed.

Lemma document_iff_well_shaped_witness :
  exists doc,
    fst (run (get_weather_forecast bells_lat bells_lon) world_up)
    = Ok (document_content doc).
Proof.
  apply (proj1 (document_iff_well_shaped world_up bells_lat bells_lon
                  marine_body wind_body eq_refl eq_refl)).
  reflexivity.
Defined.

(** X11: every document has the same layout.  Whatever the services
    sent, a returned document has the keys location, timestamp,
    current_conditions, hourly_forecast and daily_summary in this order;
    location echoes the two arguments as they were given, without any
    check or conversion; timestamp is the clock reading; and the two
    inner dicts have their five keys each. *)
Theorem document_layout (w : World) (lat lon doc : json) (t : list event) :
  run (get_weather_forecast lat lon) w = (Ok (document_content doc), t) ->
  exists c1 c2 c3 c4 c5 h1 h2 h3 h4 h5 daily,
    doc = JObj
      [ ("location", JObj [("latitude", lat); ("longitude", lon)]);
        ("timestamp", JStr (now_isoformat w));
        ("current_conditions", JObj
           [ ("wave_height_m", c1); ("wave_direction", c2); ("wave_period_s", c3);
             ("wind_speed_kmh", c4); ("wind_direction", c5) ]);
        ("hourly_forecast", JObj
           [ ("times", h1); ("wave_heights", h2); ("swell_heights", h3);
             ("wind_speeds", h4); ("wind_directions", h5) ]);
        ("daily_summary", daily) ]
    /\ t = [marine_request lat lon; wind_request lat lon].
Proof.
  rewrite get_weather_forecast_run, weather_document_run.
  destruct (fetched w marine_url _) as [m | e]; [| discriminate].
  destruct (fetched w forecast_url _) as [wd | e]; [| discriminate].
  destruct (format_forecast _ _ _ _ _) as [d | e] eqn:Hdoc; [| discriminate].
  intros H. injection H as -> <-.
  unfold format_forecast in Hdoc.
  repeat match type of Hdoc with
         | context [current_reading ?b ?k] =>
             destruct (current_reading b k); [| discriminate Hdoc]
         | context [hourly_series ?b ?k] =>
             destruct (hourly_series b k); [| discriminate Hdoc]
         end.
  destruct (py_get m "daily" (JObj [])); [| discriminate Hdoc].
  injection Hdoc as <-. repeat eexists.
Qed.

Lemma document_layout_witness :
  exists rest,
    format_forecast (JStr "south") JNull (now_isoformat world_up) marine_body wind_body
    = Ok (JObj (("location", JObj [("latitude", JStr "south"); ("longitude", JNull)])
                :: ("timestamp", JStr "2025-06-01T08:00:00") :: rest)).
Proof.
  destruct (document_layout world_up (JStr "south") JNull
              (match format_forecast (JStr "south") JNull (now_isoformat world_up)
                       marine_body wind_body with
               | Ok d => d
               | Raised _ => JNull
               end)
              [marine_request (JStr "south") JNull; wind_request (JStr "south") JNull]
              eq_refl)
    as (c1 & c2 & c3 & c4 & c5 & h1 & h2 & h3 & h4 & h5 & daily & Hdoc & _).
  rewrite (format_forecast_ok (JStr "south") JNull (now_isoformat world_up)
             marine_body wind_body eq_refl eq_refl) in Hdoc |- *.
  rewrite Hdoc. eexists. reflexivity.
Defined.

(** ** Outcomes of the report pipeline *)

Lemma render_summary_inv (weather_data : WeatherData) (summary : string) :
  render_summary weather_data = Ok summary ->
  summary = summary_of weather_data.
Proof.
  unfold render_summary, summary_of, reading. intros H.
  destruct (marine weather_data) as [| | | | | mf]; try discriminate H.
  destruct (wind weather_data) as [| | | | | wf]; try discriminate H.
  simpl in H |- *.
  destruct (dict_lookup "current" mf) as [mc |]; simpl in H;
    [destruct mc; try discriminate H |];
    (destruct (dict_lookup "current" wf) as [wc |]; simpl in H;
     [destruct wc; try discriminate H |]);
    simpl in H; injection H as <-; reflexivity.
Qed.

(** X12: [generate_surf_report] never raises, and it never returns a
    summary next to a failure.  Every run ends in one of three ways: the
    spot-not-found narrative with the empty summary and no request; a
    narrative "❌ Error: ..." with the empty summary; or a narrative with
    the summary of two bodies that both services delivered. *)
Theorem generate_surf_report_outcomes (w : World) (spot_name : string)
    (custom_lat custom_lon : option float) :
  let outcome := run (generate_surf_report spot_name custom_lat custom_lon) w in
  outcome = (Ok (spot_not_found, EmptyString), [])
  \/ (exists e t, outcome = (Ok (pipeline_error +:+ str_exn e, EmptyString), t))
  \/ (exists c weather_data narrative t,
        determine_coordinates spot_name custom_lat custom_lon = Some c
        /\ fst (run (get_marine_weather (lat c) (lon c)) w) = Ok weather_data
        /\ outcome = (Ok (narrative, summary_of weather_data), t)).
Proof.
  intros outcome. subst outcome. rewrite generate_surf_report_run.
  destruct (determine_coordinates spot_name custom_lat custom_lon) as [c |];
    [| tauto].
  destruct (run (get_marine_weather (lat c) (lon c)) w) as [[wd | e] t] eqn:Hfetch;
    [| right; left; eauto].
  destruct (run (analyze_surf_conditions spot_name wd) w) as [[report | e] t'];
    [| right; left; eauto].
  destruct (render_summary wd) as [summary | e] eqn:Hsummary;
    [| right; left; eauto].
  apply render_summary_inv in Hsummary as ->.
  right. right. exists c, wd, report, (t ++ t')%list.
  split; [reflexivity |]. split; [rewrite Hfetch |]; reflexivity.
Qed.



(** X14: what a run of the pipeline may send.  Without coordinates
    nothing is sent.  With coordinates [c] the marine request for [c]
    comes first and the wind request for [c] second; the report client is
    called at most once, and only after both bodies were decoded and the
    prompt was built from them. *)
Theorem generate_surf_report_requests (w : World) (spot_name : string)
    (custom_lat custom_lon : option float) :
  let t := snd (run (generate_surf_report spot_name custom_lat custom_lon) w) in
  match determine_coordinates spot_name custom_lat custom_lon with
  | None => t = []
  | Some c =>
      let marine_first := gradio_marine_request (lat c) (lon c) in
      let wind_second := gradio_wind_request (lat c) (lon c) in
      t = [marine_first]
      \/ t = [marine_first; wind_second]
      \/ (exists weather_data prompt,
            fst (run (get_marine_weather (lat c) (lon c)) w) = Ok weather_data
            /\ build_prompt spot_name weather_data = Ok prompt
            /\ t = [marine_first; wind_second; EvGenerate prompt])
  end.
Proof.
  intros t. subst t. rewrite generate_surf_report_run.
  destruct (determine_coordinates spot_name custom_lat custom_lon) as [c |];
    [| reflexivity].
  rewrite get_marine_weather_run.
  destruct (decoded w marine_url _) as [m | e]; [| simpl; tauto].
  destruct (decoded w forecast_url _) as [wd | e]; [| simpl; tauto].
  rewrite analyze_surf_conditions_run.
  destruct (build_prompt spot_name (mkWeatherData m wd)) as [prompt | e] eqn:Hprompt;
    [| simpl; tauto].
  right. right. exists (mkWeatherData m wd), prompt.
  split; [reflexivity |]. split; [exact Hprompt |].
  destruct (render_summary (mkWeatherData m wd)); reflexivity.
Qed.

(** X15: the wrapper does not catch what [float] raises.  A non-empty
    latitude text that [float] rejects makes [sync_generate_report]
    raise that error before anything is sent, even for a spot of the
    table; so does a rejected longitude text after an accepted or empty
    latitude. *)
Theorem sync_generate_report_rejected_number (w : World) (spot : string)
    (rejected : string) (e : exn) :
  rejected <> EmptyString ->
  float_of_str w rejected = Raised e ->
  (forall lo, run (sync_generate_report spot (Some rejected) lo) w = (Raised e, []))
  /\ (forall la custom_lat,
        run (float_or_none la) w = (Ok custom_lat, []) ->
        run (sync_generate_report spot la (Some rejected)) w = (Raised e, [])).
Proof.
  intros Hne Hrej.
  assert (Heqb : String.eqb rejected EmptyString = false)
    by (apply String.eqb_neq; exact Hne).
  split.
  - intros lo. unfold sync_generate_report, float_or_none, py_float.
    rewrite Heqb. unfold_io. simpl. rewrite Hrej. reflexivity.
  - intros la custom_lat Hla.
    unfold sync_generate_report. unfold run in Hla |- *.
    unfold mbind at 1. unfold io_bind. rewrite Hla.
    unfold float_or_none, py_float. rewrite Heqb. unfold_io. simpl.
    rewrite Hrej. reflexivity.
Qed.

Lemma sync_generate_report_rejected_number_witness :
  run (sync_generate_report bells (Some "south") (Some "10")) world_up
  = (Raised (LibraryError "ValueError" "could not convert string to float: 'south'"), [])
  /\ run (sync_generate_report bells (Some "10") (Some "144,28")) world_up
     = (Raised (LibraryError "ValueError"
                  "could not convert string to float: '144,28'"), []).
Proof.
  split.
  - apply (proj1 (sync_generate_report_rejected_number world_up bells "south"
                    (LibraryError "ValueError"
                       "could not convert string to float: 'south'")
                    ltac:(discriminate) eq_refl)).
  - apply (proj2 (sync_generate_report_rejected_number world_up bells "144,28"
                    (LibraryError "ValueError"
                       "could not convert string to float: '144,28'")
                    ltac:(discriminate) eq_refl) (Some "10") (Some 10%float)).
    reflexivity.
Defined.

(** X16: custom coordinates that are both present and not 0 are the ones
    queried, whatever the spot name, listed or not: the first request of
    the run is the marine request for exactly that pair, and the run is
    not the spot-not-found outcome. *)
Theorem custom_coordinates_are_queried (w : World) (spot_name : string) (la lo : float) :
  float_truthy la = true ->
  float_truthy lo = true ->
  (exists rest,
     snd (run (generate_surf_report spot_name (Some la) (Some lo)) w)
     = gradio_marine_request la lo :: rest)
  /\ run (generate_surf_report spot_name (Some la) (Some lo)) w
     <> (Ok (spot_not_found, EmptyString), []).
Proof.
  intros Hla Hlo.
  assert (Hrest : exists rest,
             snd (run (generate_surf_report spot_name (Some la) (Some lo)) w)
             = gradio_marine_request la lo :: rest).
  { rewrite generate_surf_report_run.
    rewrite (custom_coordinates_take_precedence spot_name la lo Hla Hlo). simpl.
    rewrite get_marine_weather_run.
    destruct (decoded w marine_url _) as [m | e]; [| simpl; eauto].
    destruct (decoded w forecast_url _) as [wd | e]; [| simpl; eauto].
    destruct (run (analyze_surf_conditions spot_name _) w) as [[report | e] t'];
      [| simpl; eauto].
    destruct (render_summary _); simpl; eauto. }
  split; [exact Hrest |].
  destruct Hrest as [rest Hrest]. intros Hrun. rewrite Hrun in Hrest.
  discriminate Hrest.
Qed.

Lemma custom_coordinates_are_queried_witness :
  exists rest,
    snd (run (generate_surf_report "Kilcunda" (Some (-38.55)%float) (Some 145.48%float))
           world_up)
    = gradio_marine_request (-38.55) 145.48 :: rest.
Proof.
  apply (proj1 (custom_coordinates_are_queried world_up "Kilcunda"
                  (-38.55) 145.48 eq_refl eq_refl)).
Defined.

(** X17: gradio.py does not look at the HTTP status.  Whatever the two
    status codes, a marine and a wind response whose bodies decode make
    [get_marine_weather] return the two bodies after the two requests. *)
Theorem get_marine_weather_ignores_status (w : World) (la lo : float)
    (marine_response wind_response : Response) (marine_data wind_data : json) :
  http_get w marine_url (gradio_marine_params la lo) = Ok marine_response ->
  json_body marine_response = Ok marine_data ->
  http_get w forecast_url (gradio_wind_params la lo) = Ok wind_response ->
  json_body wind_response = Ok wind_data ->
  run (get_marine_weather la lo) w
  = (Ok (mkWeatherData marine_data wind_data),
     [gradio_marine_request la lo; gradio_wind_request la lo]).
Proof.
  intros Hm Bm Hw Bw. rewrite get_marine_weather_run. unfold decoded.
  rewrite Hm, Hw. simpl. rewrite Bm, Bw. reflexivity.
Qed.

Lemma get_marine_weather_ignores_status_witness :
  is_success unavailable = false
  /\ run (get_marine_weather 0 10) world_marine_down
     = (Ok (mkWeatherData (JObj [("error", JBool true)]) wind_body),
        [gradio_marine_request 0 10; gradio_wind_request 0 10]).
Proof.
  split; [reflexivity |].
  apply (get_marine_weather_ignores_status world_marine_down 0 10
           unavailable (ok_response wind_body));
    reflexivity.
Defined.

Lemma current_or_na_ok (series : list string) (body : json) (key : string) :
  well_shaped series body = true ->
  current_or_na body key = Ok (reading (JStr "N/A") body key).
Proof.
  intros H. apply well_shaped_inv in H as (fields & -> & Hcur & _).
  unfold current_or_na, reading. simpl.
  destruct (dict_lookup "current" fields) as [cur |]; simpl; [| reflexivity].
  destruct cur; try discriminate Hcur. simpl.
  destruct (dict_lookup key fields0); reflexivity.
Qed.

Lemma hourly_part_ok (series : list string) (body : json) :
  well_shaped series body = true ->
  exists hourly,
    py_get body "hourly" (JObj []) = Ok hourly
    /\ forall key, In key series -> next_24 hourly key = Ok (first_day body key).
Proof.
  intros H. apply well_shaped_inv in H as (fields & -> & _ & Hhourly).
  unfold first_day. simpl.
  destruct (dict_lookup "hourly" fields) as [h |]; simpl.
  - exists h. split; [reflexivity |]. intros key Hkey.
    simpl in Hhourly. apply andb_prop in Hhourly as [Hdict Hall].
    destruct h; try discriminate Hdict.
    rewrite forallb_forall in Hall. specialize (Hall key Hkey). simpl in Hall.
    unfold next_24. simpl.
    destruct (dict_lookup key fields0) as [v |]; simpl; [| reflexivity].
    destruct v; try discriminate Hall; reflexivity.
  - exists (JObj []). split; [reflexivity |]. intros key _. reflexivity.
Qed.

Lemma build_prompt_ok (spot_name : string) (weather_data : WeatherData) :
  well_shaped gradio_marine_series (marine weather_data) = true ->
  well_shaped wind_series (wind weather_data) = true ->
  exists prompt, build_prompt spot_name weather_data = Ok prompt.
Proof.
  intros Sm Sw. unfold build_prompt.
  rewrite !(current_or_na_ok _ (marine weather_data)) by exact Sm.
  rewrite !(current_or_na_ok _ (wind weather_data)) by exact Sw.
  destruct (hourly_part_ok _ _ Sm) as (hm & -> & Hm).
  destruct (hourly_part_ok _ _ Sw) as (hw & -> & Hw).
  unfold_io.
  rewrite !Hm by (simpl; tauto). rewrite !Hw by (simpl; tauto).
  eexists. reflexivity.
Qed.

(** X18: for two well-shaped bodies the pipeline always reaches the
    report client.  When the coordinates are determined and both bodies
    decode and are well shaped, whatever their status and however many
    fields are missing, the run sends the two requests, calls the client
    once, and returns the client's text (or its error text) with the
    rendered summary. *)
Theorem well_shaped_bodies_reach_the_report (w : World) (spot_name : string)
    (custom_lat custom_lon : option float) (c : Coords) (marine_data wind_data : json) :
  determine_coordinates spot_name custom_lat custom_lon = Some c ->
  decoded w marine_url (gradio_marine_params (lat c) (lon c)) = Ok marine_data ->
  decoded w forecast_url (gradio_wind_params (lat c) (lon c)) = Ok wind_data ->
  well_shaped gradio_marine_series marine_data = true ->
  well_shaped wind_series wind_data = true ->
  exists prompt,
    build_prompt spot_name (mkWeatherData marine_data wind_data) = Ok prompt
    /\ run (generate_surf_report spot_name custom_lat custom_lon) w
       = (Ok (match messages_create w prompt with
              | Ok narrative => narrative
              | Raised e => report_error +:+ str_exn e
              end,
              summary_of (mkWeatherData marine_data wind_data)),
          [ gradio_marine_request (lat c) (lon c);
            gradio_wind_request (lat c) (lon c);
            EvGenerate prompt ]).
Proof.
  intros Hc Hm Hw Sm Sw.
  destruct (build_prompt_ok spot_name (mkWeatherData marine_data wind_data) Sm Sw)
    as [prompt Hprompt].
  exists prompt. split; [exact Hprompt |].
  rewrite generate_surf_report_run, Hc, get_marine_weather_run, Hm, Hw.
  rewrite analyze_surf_conditions_run, Hprompt.
  rewrite (render_summary_after_prompt _ _ _ Hprompt). reflexivity.
Qed.

Lemma well_shaped_bodies_reach_the_report_witness :
  exists prompt,
    run (generate_surf_report bells None None) world_refusing
    = (Ok (report_error +:+ str_exn client_has_no_messages,
           summary_without_readings),
       [ gradio_marine_request (lat bells_coords) (lon bells_coords);
         gradio_wind_request (lat bells_coords) (lon bells_coords);
         EvGenerate prompt ]).
Proof.
  destruct (well_shaped_bodies_reach_the_report world_refusing bells None None
              bells_coords error_reply error_reply)
    as (prompt & _ & Hrun).
  - vm_compute. reflexivity.
  - reflexivity.
  - reflexivity.
  - reflexivity.
  - reflexivity.
  - exists prompt. exact Hrun.
Defined.

Lemma reading_prints (body : json) (key : string) :
  prints_as body key (py_str (reading (JStr "N/A") body key)).
Proof.
  unfold prints_as, reading.
  destruct (field body "current") as [cur |]; [| reflexivity].
  destruct (field cur key) as [v |]; [| reflexivity].
  destruct v as [| [] | | | |]; simpl; auto.
Qed.

(** X19: what a rendered summary shows.  A summary that is rendered is
    the heading followed by one labelled line for each of the five
    current readings, and each line shows N/A when the reading (or the
    whole [current] block) is missing, None when the service sent null,
    and the number or text itself otherwise. *)
Theorem summary_prints_na_or_none (weather_data : WeatherData) (summary : string) :
  render_summary weather_data = Ok summary ->
  exists wave_height wave_period wave_direction wind_speed wind_direction,
    summary = "📊 Raw Weather Data:

🌊 Wave Height: " +:+ wave_height +:+ "m
📏 Wave Period: " +:+ wave_period +:+ "s
🧭 Wave Direction: " +:+ wave_direction +:+ "°
💨 Wind Speed: " +:+ wind_speed +:+ " km/h
🧭 Wind Direction: " +:+ wind_direction +:+ "°
"
    /\ prints_as (marine weather_data) "wave_height" wave_height
    /\ prints_as (marine weather_data) "wave_period" wave_period
    /\ prints_as (marine weather_data) "wave_direction" wave_direction
    /\ prints_as (wind weather_data) "wind_speed_10m" wind_speed
    /\ prints_as (wind weather_data) "wind_direction_10m" wind_direction.
Proof.
  intros Hsummary. apply render_summary_inv in Hsummary as ->.
  exists (py_str (reading (JStr "N/A") (marine weather_data) "wave_height")),
    (py_str (reading (JStr "N/A") (marine weather_data) "wave_period")),
    (py_str (reading (JStr "N/A") (marine weather_data) "wave_direction")),
    (py_str (reading (JStr "N/A") (wind weather_data) "wind_speed_10m")),
    (py_str (reading (JStr "N/A") (wind weather_data) "wind_direction_10m")).
  split; [reflexivity |].
  repeat split; apply reading_prints.
Qed.

Lemma summary_prints_na_or_none_witness :
  exists wave_height wave_period wave_direction wind_speed wind_direction,
    "📊 Raw Weather Data:

🌊 Wave Height: 1.4m
📏 Wave Period: Nones
🧭 Wave Direction: N/A°
💨 Wind Speed: 12.5 km/h
🧭 Wind Direction: 270°
" = "📊 Raw Weather Data:

🌊 Wave Height: " +:+ wave_height +:+ "m
📏 Wave Period: " +:+ wave_period +:+ "s
🧭 Wave Direction: " +:+ wave_direction +:+ "°
💨 Wind Speed: " +:+ wind_speed +:+ " km/h
🧭 Wind Direction: " +:+ wind_direction +:+ "°
"
    /\ prints_as marine_without_direction "wave_height" wave_height
    /\ prints_as marine_without_direction "wave_period" wave_period
    /\ prints_as marine_without_direction "wave_direction" wave_direction
    /\ prints_as wind_body "wind_speed_10m" wind_speed
    /\ prints_as wind_body "wind_direction_10m" wind_direction.
Proof.
  apply (summary_prints_na_or_none (mkWeatherData marine_without_direction wind_body)).
  vm_compute. reflexivity.
Defined.

(** X20: the wrapper adds nothing but the parsing.  With two non-empty
    texts that [float] accepts, [sync_generate_report] runs exactly as
    [generate_surf_report] on the two parsed numbers. *)
Theorem sync_generate_report_parses_then_runs (w : World) (spot la lo : string)
    (x y : float) :
  la <> EmptyString ->
  lo <> EmptyString ->
  float_of_str w la = Ok x ->
  float_of_str w lo = Ok y ->
  run (sync_generate_report spot (Some la) (Some lo)) w
  = run (generate_surf_report spot (Some x) (Some y)) w.
Proof.
  intros Hla Hlo Hx Hy.
  apply String.eqb_neq in Hla, Hlo.
  unfold sync_generate_report, float_or_none, py_float. rewrite Hla, Hlo. simpl.
  unfold_io. rewrite Hx, Hy. simpl.
  destruct (generate_surf_report spot (Some x) (Some y) w). reflexivity.
Qed.

Lemma sync_generate_report_parses_then_runs_witness :
  run (sync_generate_report bells (Some "0") (Some "10")) world_up
  = run (generate_surf_report bells (Some 0%float) (Some 10%float)) world_up.
Proof.
  apply (sync_generate_report_parses_then_runs world_up bells "0" "10");
    (discriminate || reflexivity).
Defined.

(** ** The registered handler *)

Lemma tool_definition_listed (tool : Tool) :
  In tool list_tools -> tool_definition (name tool) = Some tool.
Proof. simpl. intros [<- | [<- | [<- | []]]]; reflexivity. Qed.

Lemma first_missing_some (required_keys : list string) (arguments : gmap string json) :
  (exists k, In k required_keys /\ arguments !! k = None) ->
  exists k before after,
    first_missing required_keys arguments = Some k
    /\ required_keys = (before ++ k :: after)%list
    /\ (forall k', In k' before -> arguments !! k' <> None)
    /\ arguments !! k = None.
Proof.
  induction required_keys as [| k0 rest IH]; intros (k & Hin & Hnone);
    [destruct Hin |].
  simpl. destruct (arguments !! k0) as [v |] eqn:Hk0.
  - destruct Hin as [-> | Hin]; [congruence |].
    destruct (IH (ex_intro _ k (conj Hin Hnone)))
      as (k1 & before & after & Hfirst & -> & Hbefore & Hk1).
    exists k1, (k0 :: before), after. split; [exact Hfirst |].
    split; [reflexivity |]. split; [| exact Hk1].
    intros k' [<- | Hk']; [congruence | auto].
  - exists k0, [], rest. split; [reflexivity |]. split; [reflexivity |].
    split; [intros k' [] | exact Hk0].
Qed.

(** C3: a request that names a registered tool and omits a required
    argument gets a structured error response and nothing is raised.  The
    registered handler validates the arguments first: it answers the
    error result "Input validation error: '<k>' is a required property"
    for the first required argument [k] that is missing, whatever the
    coroutine it stands in front of would do, so that the coroutine is
    not invoked and no request is issued. *)
Theorem missing_required_argument_is_reported (w : World)
    (func : string -> gmap string json -> io (list TextContent))
    (tool : Tool) (arguments : gmap string json) :
  In tool list_tools ->
  (exists k, In k (required (inputSchema tool)) /\ arguments !! k = None) ->
  exists k before after,
    required (inputSchema tool) = (before ++ k :: after)%list
    /\ (forall k', In k' before -> arguments !! k' <> None)
    /\ arguments !! k = None
    /\ run (call_tool_handler func (name tool) (Some arguments)) w
       = (Ok (mkCallToolResult
                [mkTextContent "text"
                   (Plain ("Input validation error: " +:+ repr_str k
                           +:+ " is a required property"))]
                true),
          []).
Proof.
  intros Htool Hmissing.
  destruct (first_missing_some _ _ Hmissing)
    as (k & before & after & Hfirst & Hsplit & Hbefore & Hnone).
  exists k, before, after.
  split; [exact Hsplit |]. split; [exact Hbefore |]. split; [exact Hnone |].
  unfold call_tool_handler. rewrite (tool_definition_listed tool Htool).
  unfold validation_error. simpl. rewrite Hfirst. reflexivity.
Qed.

Lemma missing_required_argument_is_reported_witness :
  run (call_tool_handler call_tool "get_weather_forecast" (Some only_longitude)) world_up
  = (Ok (mkCallToolResult
           [mkTextContent "text"
              (Plain "Input validation error: 'latitude' is a required property")]
           true),
     []).
Proof.
  destruct (missing_required_argument_is_reported world_up call_tool
              (mkTool "get_weather_forecast"
                 "Get marine weather forecast including swell, wind, and tide data for coordinates"
                 (mkInputSchema "object"
                    [ ("latitude", mkProperty "number" "Latitude of the surf spot");
                      ("longitude", mkProperty "number" "Longitude of the surf spot") ]
                    ["latitude"; "longitude"]))
              only_longitude)
    as (k & before & after & Hsplit & Hbefore & Hnone & Hrun).
  - simpl. left. reflexivity.
  - exists "latitude". split; [simpl; tauto | vm_compute; reflexivity].
  - simpl in Hsplit.
    destruct before as [| b0 before].
    + injection Hsplit as <- _. exact Hrun.
    + injection Hsplit as <- Hrest. exfalso.
      apply (Hbefore "latitude"); [left; reflexivity | vm_compute; reflexivity].
Defined.




